(** * Fides reference implementation: hash chain, ledger, records, verification

    A shallow embedding of the Python modules [hash_chain.py], [ledger.py],
    [records.py] and [verify.py], followed by the properties of the
    specification that are stated about them.

    Conventions.
    - A Python [dict] with string keys is a [gmap string pyval]; nothing in
      the code depends on the iteration order of a record.
    - A Python function that may raise returns a [result]; a method of
      [FidesLedger] that writes returns its outcome together with the ledger
      it leaves behind, so that a failed call can be compared with the state
      it started from.
    - The standard-library calls whose grammar is not part of the repository
      ([hashlib.sha256], [json.dumps], [datetime.fromisoformat], the
      [Decimal] constructor, [str] of a list) are the fields of the class
      [PyLib]; every general theorem holds for all of them.  The arithmetic
      and the comparisons of [Decimal] and [datetime] values, on which the
      decision procedure relies, are modelled in full. *)

From Stdlib Require Import ZArith Lia Ascii String List Bool.
From stdpp Require Import base option list strings gmap.

Local Open Scope string_scope.
Local Open Scope list_scope.
Local Open Scope Z_scope.

#[local] Set Warnings "-register-all".

(** ** Python values and exceptions *)

(** The values a record field holds: the strings and lists the factory
    functions are annotated with, and [None]. *)
Inductive pyval : Type :=
| VNone
| VStr (s : string)
| VList (items : list pyval).

Abbreviation record := (gmap string pyval).

(** The exception classes that can leave the functions modelled here. *)
Inductive exn : Type :=
| ValueError (msg : string)
| TypeError
| AttributeError
| KeyError (key : string)
| InvalidOperation
| Overflow
| sqlite3_Error.

Inductive result (A : Type) : Type :=
| Ok (a : A)
| Raise (e : exn).
Arguments Ok {A} a.
Arguments Raise {A} e.

(** Sequencing: an exception raised by the first computation leaves the
    rest unevaluated. *)
Definition bind {A B : Type} (m : result A) (f : A -> result B) : result B :=
  match m with
  | Ok a => f a
  | Raise e => Raise e
  end.

Notation "x <- m ;; k" := (bind m (fun x => k))
  (at level 100, m at next level, right associativity).

(** [d.get(k)] and [d.get(k, default)]. *)
Definition dict_get (d : record) (k : string) : pyval := default VNone (d !! k).
Definition dict_get_or (d : record) (k : string) (dflt : pyval) : pyval :=
  default dflt (d !! k).

(** [d[k]]. *)
Definition getitem (d : record) (k : string) : result pyval :=
  match d !! k with
  | Some v => Ok v
  | None => Raise (KeyError k)
  end.

(** [x == s] for a string [s]: a value of another type is never equal to it. *)
Definition eq_str (v : pyval) (s : string) : bool :=
  match v with
  | VStr t => bool_decide (t = s)
  | _ => false
  end.

(** Truth value of an object in a condition. *)
Definition truthy (v : pyval) : bool :=
  match v with
  | VNone => false
  | VStr s => negb (bool_decide (s = ""))
  | VList l => negb (bool_decide (l = []))
  end.

(** [str(x)], as an f-string or an explicit [str] call renders a field. *)
Definition py_str_with (repr_list : list pyval -> string) (v : pyval) : string :=
  match v with
  | VNone => "None"
  | VStr s => s
  | VList l => repr_list l
  end.

(** [s.lower()] and [s.upper()] on the ASCII letters.  [upper] is applied to
    field names, which are ASCII; [lower] is applied before a pattern of
    hexadecimal digits and hyphens, to which Unicode lower-casing maps no
    character from outside ASCII. *)
Definition ascii_lower (a : ascii) : ascii :=
  let n := nat_of_ascii a in
  if ((65 <=? n) && (n <=? 90))%nat then ascii_of_nat (n + 32) else a.
Definition ascii_upper (a : ascii) : ascii :=
  let n := nat_of_ascii a in
  if ((97 <=? n) && (n <=? 122))%nat then ascii_of_nat (n - 32) else a.

Fixpoint str_map (f : ascii -> ascii) (s : string) : string :=
  match s with
  | EmptyString => EmptyString
  | String a s' => String (f a) (str_map f s')
  end.
Definition lower : string -> string := str_map ascii_lower.
Definition upper : string -> string := str_map ascii_upper.

(** [value.replace('Z', '+00:00')]. *)
Fixpoint replace_Z (s : string) : string :=
  match s with
  | EmptyString => EmptyString
  | String a s' =>
      if Ascii.eqb a "Z"%char then "+00:00" +:+ replace_Z s'
      else String a (replace_Z s')
  end.

(** ** [datetime] values

    A [datetime] is its wall-clock reading, counted in microseconds, and the
    UTC offset of its [tzinfo], absent for a naive value.  Ordering two aware
    values compares the instants; ordering two naive values compares the
    readings; ordering a naive with an aware value raises [TypeError]. *)
Record datetime : Type := mk_datetime {
  dt_wall : Z;
  dt_utcoffset : option Z
}.

Definition dt_cmp (a b : datetime) : result comparison :=
  match dt_utcoffset a, dt_utcoffset b with
  | None, None => Ok (dt_wall a ?= dt_wall b)
  | Some oa, Some ob => Ok (dt_wall a - oa ?= dt_wall b - ob)
  | _, _ => Raise TypeError
  end.

Definition dt_lt (a b : datetime) : result bool :=
  c <- dt_cmp a b ;; Ok (match c with Lt => true | _ => false end).
Definition dt_gt (a b : datetime) : result bool :=
  c <- dt_cmp a b ;; Ok (match c with Gt => true | _ => false end).

(** ** [decimal.Decimal] in the default context

    A finite number is a signed coefficient and an exponent; the sign of a
    zero is not kept, since no comparison tells [-0] from [0].  The default
    context has 28 digits of precision, rounds half to even, and traps
    [InvalidOperation] and [Overflow]. *)
Inductive Decimal : Type :=
| DFin (coeff : Z) (exp : Z)
| DInf (negative : bool)
| DNaN (signalling : bool).

Definition prec : Z := 28.
Definition Emax : Z := 999999.
Definition Emin : Z := -999999.
Definition Etiny : Z := Emin - prec + 1.
Definition Etop : Z := Emax - prec + 1.

Fixpoint digits_loop (fuel : nat) (n : Z) : Z :=
  match fuel with
  | O => 1
  | S fuel' => if n <? 10 then 1 else 1 + digits_loop fuel' (n / 10)
  end.

(** [len(self._int)]: the number of decimal digits of a coefficient. *)
Definition ndigits (n : Z) : Z :=
  digits_loop (Z.to_nat (Z.log2 (Z.abs n))) (Z.abs n).

(** The quotient of [c] by [10^k], rounded half to even. *)
Definition round_half_even (c k : Z) : Z :=
  let q := c / 10 ^ k in
  let r := c mod 10 ^ k in
  if (2 * r >? 10 ^ k) || ((2 * r =? 10 ^ k) && Z.odd q) then q + 1 else q.

(** [Decimal._fix]: round an exact finite result to the context. *)
Definition dec_fix (c e : Z) : result Decimal :=
  if c =? 0 then Ok (DFin 0 (Z.min (Z.max e Etiny) Emax))
  else
    let a := Z.abs c in
    let exp_min := ndigits a + e - prec in
    if exp_min >? Etop then Raise Overflow
    else
      let exp_min := Z.max exp_min Etiny in
      if e <? exp_min then
        let q := round_half_even a (exp_min - e) in
        let '(q, exp_min) :=
          if ndigits q >? prec then (q / 10, exp_min + 1) else (q, exp_min) in
        if exp_min >? Etop then Raise Overflow
        else Ok (DFin (Z.sgn c * q) exp_min)
      else Ok (DFin c e).

(** The sum of two values with every digit kept. *)
Definition dec_add_exact (a b : Decimal) : result Decimal :=
  match a, b with
  | DNaN true, _ | _, DNaN true => Raise InvalidOperation
  | DNaN false, _ | _, DNaN false => Ok (DNaN false)
  | DInf na, DInf nb =>
      if Bool.eqb na nb then Ok (DInf na) else Raise InvalidOperation
  | DInf na, DFin _ _ => Ok (DInf na)
  | DFin _ _, DInf nb => Ok (DInf nb)
  | DFin c1 e1, DFin c2 e2 =>
      let e := Z.min e1 e2 in
      Ok (DFin (c1 * 10 ^ (e1 - e) + c2 * 10 ^ (e2 - e)) e)
  end.

(** [a + b]: the exact sum, then [_fix]. *)
Definition dec_add (a b : Decimal) : result Decimal :=
  s <- dec_add_exact a b ;;
  match s with
  | DFin c e => dec_fix c e
  | _ => Ok s
  end.

(** Ordering comparisons signal [InvalidOperation] on a NaN operand and are
    exact otherwise. *)
Definition dec_cmp (a b : Decimal) : result comparison :=
  match a, b with
  | DNaN _, _ | _, DNaN _ => Raise InvalidOperation
  | DInf na, DInf nb =>
      Ok (if na then (if nb then Eq else Lt) else (if nb then Gt else Eq))
  | DInf na, DFin _ _ => Ok (if na then Lt else Gt)
  | DFin _ _, DInf nb => Ok (if nb then Gt else Lt)
  | DFin c1 e1, DFin c2 e2 =>
      let e := Z.min e1 e2 in
      Ok (c1 * 10 ^ (e1 - e) ?= c2 * 10 ^ (e2 - e))
  end.

Definition dec_gt (a b : Decimal) : result bool :=
  c <- dec_cmp a b ;; Ok (match c with Gt => true | _ => false end).
Definition dec_le (a b : Decimal) : result bool :=
  c <- dec_cmp a b ;; Ok (match c with Gt => false | _ => true end).

Definition dec_zero : Decimal := DFin 0 0.

(** ** The standard-library calls left abstract *)
Class PyLib : Type := {
  (** [hashlib.sha256(data).hexdigest()], on the UTF-8 bytes of a string *)
  sha256_hexdigest : string -> string;
  (** [json.dumps(record, sort_keys=True, separators=(',', ':'),
      ensure_ascii=False)] *)
  json_dumps : record -> string;
  (** [datetime.fromisoformat(s)]; [None] when it raises [ValueError] *)
  fromisoformat : string -> option datetime;
  (** [Decimal(s)]; [None] when it raises [InvalidOperation] *)
  Decimal_of_str : string -> option Decimal;
  (** [str(l)] of a list *)
  repr_list : list pyval -> string
}.

Definition of_option {A : Type} (o : option A) (e : exn) : result A :=
  match o with
  | Some a => Ok a
  | None => Raise e
  end.

Section Fides.
Context `{PyLib}.

Definition py_str : pyval -> string := py_str_with repr_list.

(** ** hash_chain.py *)

Definition canonical_json (record : record) : string := json_dumps record.

Definition sha256_hash (data : string) : string := sha256_hexdigest data.

(** The two arguments are rendered by the f-string, whatever their type. *)
Definition genesis_hash (authority_id genesis_timestamp : pyval) : string :=
  let seed :=
    "FIDES-GENESIS-" +:+ py_str authority_id +:+ "-" +:+ py_str genesis_timestamp in
  sha256_hash seed.

Definition record_hash (record : record) : string :=
  let canonical := canonical_json record in
  sha256_hash canonical.

Definition compute_previous_hash
    (authority_id record_timestamp : string) (previous_record : option record)
  : string :=
  match previous_record with
  | None => genesis_hash (VStr authority_id) (VStr record_timestamp)
  | Some previous => record_hash previous
  end.

Definition verify_chain_link (current_record previous_record : record) : bool :=
  let expected_hash := record_hash previous_record in
  eq_str (dict_get current_record "previous_record_hash") expected_hash.

Definition verify_genesis (record : record) : bool :=
  let expected :=
    genesis_hash (dict_get_or record "authority_id" (VStr ""))
                 (dict_get_or record "record_timestamp" (VStr "")) in
  eq_str (dict_get record "previous_record_hash") expected.

(** ** ledger.py *)

(** A row of the table [records].  [record_data] holds the record itself:
    [json.loads] gives back the strings, lists and [None] that [json.dumps]
    was given.  The columns [id] and [created_at] are the position in the
    list and a clock reading that no query selects. *)
Record record_row : Type := mk_record_row {
  row_record_type : string;
  row_decision_id : option string;
  row_revocation_id : option string;
  row_target_decision_id : option string;
  row_authority_id : string;
  row_previous_record_hash : string;
  row_record_timestamp : string;
  row_record_data : record;
  row_record_hash : string
}.

(** A row of the table [payments]. *)
Record payment_row : Type := mk_payment_row {
  pay_payment_id : string;
  pay_decision_id : string;
  pay_beneficiary : string;
  pay_currency : string;
  pay_value : string;
  pay_payment_date : string
}.

Record FidesLedger : Type := mk_ledger {
  records : list record_row;
  payments : list payment_row
}.

(** [FidesLedger(":memory:")]. *)
Definition new_ledger : FidesLedger := mk_ledger [] [].

(** Binding a Python value to a statement parameter, on the values that
    [pyval] holds: [None] is bound as NULL, a string as itself, a list is
    refused.  (sqlite3 also binds numbers and bytes, which no record built
    here carries and which [pyval] does not have.) *)
Definition bind_text (v : pyval) : result (option string) :=
  match v with
  | VNone => Ok None
  | VStr s => Ok (Some s)
  | VList _ => Raise sqlite3_Error
  end.

(** A [NOT NULL] column. *)
Definition not_null (c : option string) : result string :=
  of_option c sqlite3_Error.

Definition _get_last_record (l : FidesLedger) : option record :=
  row_record_data <$> last (records l).

Definition _get_record_count (l : FidesLedger) : Z :=
  Z.of_nat (length (records l)).

Definition get_all_records (l : FidesLedger) : list record :=
  row_record_data <$> records l.

(** The chain check of [append_record]. *)
Definition check_chain (record : record) (l : FidesLedger) : result unit :=
  let last_record := _get_last_record l in
  let record_count := _get_record_count l in
  if record_count =? 0 then
    if negb (verify_genesis record) then Raise (ValueError "Invalid genesis hash")
    else Ok tt
  else
    match last_record with
    | Some last_record =>
        if negb (verify_chain_link record last_record)
        then Raise (ValueError "Hash chain validation failed")
        else Ok tt
    | None => Raise TypeError (* not reached: a table with rows has a last row *)
    end.

(** The [INSERT] of [append_record]: bind the parameters, then enforce the
    column constraints. *)
Definition insert_record (record : record) (rec_hash : string)
  : result record_row :=
  record_type <- bind_text (dict_get_or record "record_type" (VStr "DR")) ;;
  decision_id <- bind_text (dict_get record "decision_id") ;;
  revocation_id <- bind_text (dict_get record "revocation_id") ;;
  target_decision_id <- bind_text (dict_get record "target_decision_id") ;;
  authority_id <- bind_text (dict_get record "authority_id") ;;
  previous_record_hash <- bind_text (dict_get record "previous_record_hash") ;;
  record_timestamp <- bind_text (dict_get record "record_timestamp") ;;
  record_type <- not_null record_type ;;
  authority_id <- not_null authority_id ;;
  previous_record_hash <- not_null previous_record_hash ;;
  record_timestamp <- not_null record_timestamp ;;
  Ok (mk_record_row record_type decision_id revocation_id target_decision_id
        authority_id previous_record_hash record_timestamp record rec_hash).

Definition append_record (record : record) (l : FidesLedger)
  : result string * FidesLedger :=
  match check_chain record l with
  | Raise e => (Raise e, l)
  | Ok _ =>
      let rec_hash := record_hash record in
      match insert_record record rec_hash with
      | Raise e => (Raise e, l)
      | Ok row => (Ok rec_hash, mk_ledger (records l ++ [row]) (payments l))
      end
  end.

Definition is_decision_row (decision_id : string) (row : record_row) : bool :=
  bool_decide (row_decision_id row = Some decision_id)
  && (bool_decide (row_record_type row = "DR")
      || bool_decide (row_record_type row = "SDR")).

Definition find_decision_record (l : FidesLedger) (decision_id : string)
  : option record :=
  row_record_data <$> List.find (is_decision_row decision_id) (records l).

Definition is_revocation_row (decision_id : string) (row : record_row) : bool :=
  bool_decide (row_target_decision_id row = Some decision_id)
  && bool_decide (row_record_type row = "RR").

Definition find_revocation_record (l : FidesLedger) (decision_id : string)
  : option record :=
  row_record_data <$> List.find (is_revocation_row decision_id) (records l).

Definition is_revoked (l : FidesLedger) (decision_id : string) : bool :=
  match find_revocation_record l decision_id with
  | Some _ => true
  | None => false
  end.

(** [payment_id] is [UNIQUE]: a second row with the same identifier is
    refused. *)
Definition record_payment
    (payment_id decision_id beneficiary currency value payment_date : string)
    (l : FidesLedger) : result unit * FidesLedger :=
  if bool_decide (payment_id ∈ pay_payment_id <$> payments l)
  then (Raise sqlite3_Error, l)
  else
    let row :=
      mk_payment_row payment_id decision_id beneficiary currency value
        payment_date in
    (Ok tt, mk_ledger (records l) (payments l ++ [row])).

(** The loop of [sum_payments]: [total += Decimal(row['value'])]. *)
Fixpoint sum_values (total : Decimal) (values : list string) : result Decimal :=
  match values with
  | [] => Ok total
  | value :: rest =>
      d <- of_option (Decimal_of_str value) InvalidOperation ;;
      total <- dec_add total d ;;
      sum_values total rest
  end.

(** The function returns [str(total)] and its caller builds a [Decimal] from
    that string again, which gives back the same number; the total is passed
    here as the number it is. *)
Definition sum_payments (l : FidesLedger) (decision_id : string)
  : result Decimal :=
  let rows :=
    List.filter (fun row => bool_decide (pay_decision_id row = decision_id))
      (payments l) in
  sum_values dec_zero (pay_value <$> rows).

(** The loop of [verify_chain_integrity] from index [i] on. *)
Fixpoint verify_links (i : nat) (previous : record) (rest : list record)
  : bool * option nat :=
  match rest with
  | [] => (true, None)
  | current :: rest' =>
      if negb (verify_chain_link current previous) then (false, Some i)
      else verify_links (S i) current rest'
  end.

Definition verify_chain_integrity (l : FidesLedger) : bool * option nat :=
  match get_all_records l with
  | [] => (true, None)
  | first :: rest =>
      if negb (verify_genesis first) then (false, Some 0%nat)
      else verify_links 1 first rest
  end.

(** ** records.py *)

Inductive char_class : Type := Hex | Dash | Four | Variant.

Definition in_class (c : char_class) (a : ascii) : bool :=
  let n := nat_of_ascii a in
  match c with
  | Hex => (((48 <=? n) && (n <=? 57)) || ((97 <=? n) && (n <=? 102)))%nat
  | Dash => (n =? 45)%nat
  | Four => (n =? 52)%nat
  | Variant => ((n =? 56) || (n =? 57) || (n =? 97) || (n =? 98))%nat
  end.

(** [^[0-9a-f]{8}-[0-9a-f]{4}-4[0-9a-f]{3}-[89ab][0-9a-f]{3}-[0-9a-f]{12}$] *)
Definition uuid_v4_pattern : list char_class :=
  repeat Hex 8 ++ [Dash] ++ repeat Hex 4 ++ [Dash; Four] ++ repeat Hex 3
  ++ [Dash; Variant] ++ repeat Hex 3 ++ [Dash] ++ repeat Hex 12.

(** [re.match]: the pattern is anchored at the start, and [$] matches at the
    end of the string or before a newline that ends it. *)
Fixpoint re_match (pattern : list char_class) (s : string) : bool :=
  match pattern with
  | [] =>
      match s with
      | EmptyString => true
      | String a EmptyString => (nat_of_ascii a =? 10)%nat
      | _ => false
      end
  | c :: pattern' =>
      match s with
      | EmptyString => false
      | String a s' => in_class c a && re_match pattern' s'
      end
  end.

Definition is_uuid_v4 (value : pyval) : bool :=
  re_match uuid_v4_pattern (lower (py_str value)).

(** A value without a [replace] method raises [AttributeError], which is
    caught like the [ValueError] of [fromisoformat]. *)
Definition is_iso8601 (value : pyval) : bool :=
  match value with
  | VStr s =>
      match fromisoformat (replace_Z s) with
      | Some _ => true
      | None => false
      end
  | _ => false
  end.

Definition parse_date (value : pyval) : result datetime :=
  match value with
  | VStr s => of_option (fromisoformat (replace_Z s)) (ValueError "Invalid isoformat string")
  | _ => Raise AttributeError
  end.

(** [d > 0] is inside the [try]: the [InvalidOperation] of a NaN is caught. *)
Definition is_positive_decimal (value : pyval) : bool :=
  match Decimal_of_str (py_str value) with
  | Some d =>
      match dec_gt d dec_zero with
      | Ok b => b
      | Raise _ => false
      end
  | None => false
  end.

Definition is_list (v : pyval) : bool :=
  match v with VList _ => true | _ => false end.
Definition is_str (v : pyval) : bool :=
  match v with VStr _ => true | _ => false end.

(** [len(x)] of a list or a string. *)
Definition py_len (v : pyval) : result nat :=
  match v with
  | VList l => Ok (length l)
  | VStr s => Ok (String.length s)
  | VNone => Raise TypeError
  end.

(** [not isinstance(x, list) or len(x) == 0] *)
Definition not_nonempty_list (v : pyval) : bool :=
  match v with
  | VList l => bool_decide (length l = 0%nat)
  | _ => true
  end.

(** [not isinstance(x, str) or len(x) == 0] *)
Definition not_nonempty_str (v : pyval) : bool :=
  match v with
  | VStr s => bool_decide (String.length s = 0%nat)
  | _ => true
  end.

(** [if field not in dr or dr[field] is None: errors.append(...)], over the
    required fields in their order. *)
Fixpoint missing_fields (required : list string) (r : record) : list string :=
  match required with
  | [] => []
  | field :: rest =>
      match r !! field with
      | None | Some VNone => ("MISSING_" +:+ upper field) :: missing_fields rest r
      | Some _ => missing_fields rest r
      end
  end.

(** [if violated: errors.append(code)] *)
Definition check (violated : bool) (code : string) (errors : list string)
  : list string :=
  if violated then errors ++ [code] else errors.

Definition no_errors (errors : list string) : bool :=
  match errors with [] => true | _ => false end.

Definition dr_required : list string :=
  [ "decision_id"; "authority_id"; "deciders_id"; "act_type";
    "currency"; "maximum_value"; "beneficiary"; "legal_basis";
    "decision_date"; "previous_record_hash"; "record_timestamp";
    "signatures" ].

(** The temporal constraint of [validate_dr]: [decision_date <=
    record_timestamp], looked at only when both are timestamps. *)
Definition decision_after_timestamp (decision_date record_timestamp : pyval)
  : result bool :=
  if is_iso8601 decision_date && is_iso8601 record_timestamp then
    d <- parse_date decision_date ;;
    t <- parse_date record_timestamp ;;
    dt_gt d t
  else Ok false.

(** The binding rule of [validate_dr]: as many deciders as signatures, looked
    at only when both are lists. *)
Definition count_mismatch (deciders_id signatures : pyval) : bool :=
  match deciders_id, signatures with
  | VList ds, VList ss => negb (bool_decide (length ds = length ss))
  | _, _ => false
  end.

Definition validate_dr (dr : record) : result (bool * list string) :=
  let errors := missing_fields dr_required dr in
  if negb (no_errors errors) then Ok (false, errors)
  else
    decision_id <- getitem dr "decision_id" ;;
    let errors := check (negb (is_uuid_v4 decision_id)) "INVALID_DECISION_ID" errors in
    deciders_id <- getitem dr "deciders_id" ;;
    let errors := check (not_nonempty_list deciders_id) "INVALID_DECIDERS_ID" errors in
    act_type <- getitem dr "act_type" ;;
    let errors := check (not_nonempty_str act_type) "INVALID_ACT_TYPE" errors in
    maximum_value <- getitem dr "maximum_value" ;;
    let errors :=
      check (negb (is_positive_decimal maximum_value)) "INVALID_MAXIMUM_VALUE" errors in
    decision_date <- getitem dr "decision_date" ;;
    let errors := check (negb (is_iso8601 decision_date)) "INVALID_DECISION_DATE" errors in
    record_timestamp <- getitem dr "record_timestamp" ;;
    let errors :=
      check (negb (is_iso8601 record_timestamp)) "INVALID_RECORD_TIMESTAMP" errors in
    after <- decision_after_timestamp decision_date record_timestamp ;;
    let errors := check after "DECISION_DATE_AFTER_RECORD_TIMESTAMP" errors in
    signatures <- getitem dr "signatures" ;;
    let errors := check (not_nonempty_list signatures) "INVALID_SIGNATURES" errors in
    let errors :=
      check (count_mismatch (dict_get dr "deciders_id") (dict_get dr "signatures"))
        "DECIDERS_SIGNATURES_MISMATCH" errors in
    Ok (no_errors errors, errors).

Definition rr_required : list string :=
  [ "revocation_id"; "target_decision_id"; "authority_id";
    "deciders_id"; "revocation_reason"; "revocation_date";
    "previous_record_hash"; "record_timestamp"; "signatures" ].

Definition validate_rr (rr : record) : result (bool * list string) :=
  let errors := missing_fields rr_required rr in
  if negb (no_errors errors) then Ok (false, errors)
  else
    revocation_id <- getitem rr "revocation_id" ;;
    let errors := check (negb (is_uuid_v4 revocation_id)) "INVALID_REVOCATION_ID" errors in
    target_decision_id <- getitem rr "target_decision_id" ;;
    let errors :=
      check (negb (is_uuid_v4 target_decision_id)) "INVALID_TARGET_DECISION_ID" errors in
    deciders_id <- getitem rr "deciders_id" ;;
    let errors := check (not_nonempty_list deciders_id) "INVALID_DECIDERS_ID" errors in
    revocation_date <- getitem rr "revocation_date" ;;
    let errors :=
      check (negb (is_iso8601 revocation_date)) "INVALID_REVOCATION_DATE" errors in
    record_timestamp <- getitem rr "record_timestamp" ;;
    let errors :=
      check (negb (is_iso8601 record_timestamp)) "INVALID_RECORD_TIMESTAMP" errors in
    signatures <- getitem rr "signatures" ;;
    let errors := check (not_nonempty_list signatures) "INVALID_SIGNATURES" errors in
    Ok (no_errors errors, errors).

(** [f"{errors}"]: the list of codes as [str] renders it. *)
Definition show_errors (errors : list string) : string :=
  repr_list (VStr <$> errors).

(** The dictionary literal of [create_decision_record]. *)
Definition dr_dict
    (decision_id authority_id : string) (deciders_id : list string)
    (act_type currency maximum_value beneficiary legal_basis decision_date
       previous_hash record_timestamp : string)
    (signatures : list string) : record :=
    <["record_type" := VStr "DR"]>
    (<["decision_id" := VStr decision_id]>
    (<["authority_id" := VStr authority_id]>
    (<["deciders_id" := VList (VStr <$> deciders_id)]>
    (<["act_type" := VStr act_type]>
    (<["currency" := VStr currency]>
    (<["maximum_value" := VStr maximum_value]>
    (<["beneficiary" := VStr beneficiary]>
    (<["legal_basis" := VStr legal_basis]>
    (<["decision_date" := VStr decision_date]>
    (<["previous_record_hash" := VStr previous_hash]>
    (<["record_timestamp" := VStr record_timestamp]>
    (<["signatures" := VList (VStr <$> signatures)]> ∅)))))))))))).

(** The dictionary literal of [create_revocation_record]. *)
Definition rr_dict
    (revocation_id target_decision_id authority_id : string)
    (deciders_id : list string)
    (revocation_reason revocation_date previous_hash record_timestamp : string)
    (signatures : list string) : record :=
    <["record_type" := VStr "RR"]>
    (<["revocation_id" := VStr revocation_id]>
    (<["target_decision_id" := VStr target_decision_id]>
    (<["authority_id" := VStr authority_id]>
    (<["deciders_id" := VList (VStr <$> deciders_id)]>
    (<["revocation_reason" := VStr revocation_reason]>
    (<["revocation_date" := VStr revocation_date]>
    (<["previous_record_hash" := VStr previous_hash]>
    (<["record_timestamp" := VStr record_timestamp]>
    (<["signatures" := VList (VStr <$> signatures)]> ∅))))))))).

(** [generate_uuid()] and [current_timestamp()] read the random source and
    the clock; what they would return is passed in as [fresh_uuid] and
    [now]. *)
Definition create_decision_record
    (fresh_uuid now : string)
    (authority_id : string) (deciders_id : list string)
    (act_type currency maximum_value beneficiary legal_basis decision_date : string)
    (signatures : list string)
    (decision_id record_timestamp : option string)
    (ledger : FidesLedger) : result record * FidesLedger :=
  let decision_id := default fresh_uuid decision_id in
  let record_timestamp := default now record_timestamp in
  let records := get_all_records ledger in
  let previous_record := last records in
  let previous_hash :=
    compute_previous_hash authority_id record_timestamp previous_record in
  let dr :=
    dr_dict decision_id authority_id deciders_id act_type currency maximum_value
      beneficiary legal_basis decision_date previous_hash record_timestamp
      signatures in
  match validate_dr dr with
  | Raise e => (Raise e, ledger)
  | Ok (valid, errors) =>
      if negb valid
      then (Raise (ValueError ("Invalid Decision Record: " +:+ show_errors errors)), ledger)
      else
        match append_record dr ledger with
        | (Raise e, ledger') => (Raise e, ledger')
        | (Ok _, ledger') => (Ok dr, ledger')
        end
  end.

Definition create_revocation_record
    (fresh_uuid now : string)
    (target_decision_id authority_id : string) (deciders_id : list string)
    (revocation_reason : string) (signatures : list string)
    (revocation_id revocation_date record_timestamp : option string)
    (ledger : FidesLedger) : result record * FidesLedger :=
  match find_decision_record ledger target_decision_id with
  | None =>
      (Raise (ValueError ("Target decision not found: " +:+ target_decision_id)), ledger)
  | Some target =>
      if is_revoked ledger target_decision_id
      then (Raise (ValueError ("Decision already revoked: " +:+ target_decision_id)), ledger)
      else
        let revocation_id := default fresh_uuid revocation_id in
        let record_timestamp := default now record_timestamp in
        let revocation_date := default record_timestamp revocation_date in
        let records := get_all_records ledger in
        let previous_record := last records in
        let previous_hash :=
          compute_previous_hash authority_id record_timestamp previous_record in
        let rr :=
          rr_dict revocation_id target_decision_id authority_id deciders_id
            revocation_reason revocation_date previous_hash record_timestamp
            signatures in
        match validate_rr rr with
        | Raise e => (Raise e, ledger)
        | Ok (valid, errors) =>
            if negb valid
            then (Raise (ValueError ("Invalid Revocation Record: " +:+ show_errors errors)),
                  ledger)
            else
              match append_record rr ledger with
              | (Raise e, ledger') => (Raise e, ledger')
              | (Ok _, ledger') => (Ok rr, ledger')
              end
        end
  end.

(** ** verify.py *)

Record Payment : Type := mk_payment {
  decision_id : string;
  beneficiary : string;
  currency : string;
  value : string;
  payment_date : string
}.

(** Step 8 of both decision functions: the expiry of an SDR.  The result is
    [true] when the payment is past [maximum_term]. *)
Definition exception_expired (dr : record) (payment_dt : datetime) : result bool :=
  if eq_str (dict_get dr "record_type") "SDR" then
    let maximum_term := dict_get dr "maximum_term" in
    if truthy maximum_term && is_iso8601 maximum_term then
      term <- parse_date maximum_term ;;
      dt_gt payment_dt term
    else Ok false
  else Ok false.

Definition is_payment_authorized (ledger : FidesLedger) (payment : Payment)
  : result bool :=
  (* Step 1: find the decision record *)
  match find_decision_record ledger (decision_id payment) with
  | None => Ok false
  | Some dr =>
  (* Step 2: check if revoked *)
  if is_revoked ledger (decision_id payment) then Ok false else
  (* Step 3: validate record structure *)
  checked <- validate_dr dr ;;
  let '(valid, _) := checked in
  if negb valid then Ok false else
  (* Step 4: check temporal order *)
  if negb (is_iso8601 (VStr (payment_date payment))) then Ok false else
  if negb (is_iso8601 (dict_get_or dr "decision_date" (VStr ""))) then Ok false else
  payment_dt <- parse_date (VStr (payment_date payment)) ;;
  decision_date <- getitem dr "decision_date" ;;
  decision_dt <- parse_date decision_date ;;
  before <- dt_lt payment_dt decision_dt ;;
  if before then Ok false else
  (* Step 5: check beneficiary match *)
  if negb (eq_str (dict_get dr "beneficiary") (beneficiary payment)) then Ok false else
  (* Step 6: check currency match *)
  if negb (eq_str (dict_get dr "currency") (currency payment)) then Ok false else
  (* Step 7: check value limit *)
  match Decimal_of_str (value payment),
        Decimal_of_str (py_str (dict_get_or dr "maximum_value" (VStr "0"))) with
  | Some payment_value, Some maximum_value =>
      nonpositive <- dec_le payment_value dec_zero ;;
      if nonpositive then Ok false else
      total_paid <- sum_payments ledger (decision_id payment) ;;
      new_total <- dec_add total_paid payment_value ;;
      exceeds <- dec_gt new_total maximum_value ;;
      if exceeds then Ok false else
      (* Step 8: check expiration (for SDR only) *)
      expired <- exception_expired dr payment_dt ;;
      if expired then Ok false else
      Ok true
  | _, _ => Ok false
  end
  end.

Definition is_payment_authorized_with_reason
    (ledger : FidesLedger) (payment : Payment) : result (bool * string) :=
  match find_decision_record ledger (decision_id payment) with
  | None => Ok (false, "RECORD_NOT_FOUND")
  | Some dr =>
  if is_revoked ledger (decision_id payment) then Ok (false, "DECISION_REVOKED") else
  checked <- validate_dr dr ;;
  let '(valid, errors) := checked in
  if negb valid then Ok (false, "INVALID_RECORD: " +:+ show_errors errors) else
  if negb (is_iso8601 (VStr (payment_date payment)))
  then Ok (false, "INVALID_PAYMENT_DATE") else
  if negb (is_iso8601 (dict_get_or dr "decision_date" (VStr "")))
  then Ok (false, "INVALID_DECISION_DATE") else
  payment_dt <- parse_date (VStr (payment_date payment)) ;;
  decision_date <- getitem dr "decision_date" ;;
  decision_dt <- parse_date decision_date ;;
  before <- dt_lt payment_dt decision_dt ;;
  if before then Ok (false, "PAYMENT_BEFORE_DECISION") else
  if negb (eq_str (dict_get dr "beneficiary") (beneficiary payment))
  then Ok (false, "BENEFICIARY_MISMATCH") else
  if negb (eq_str (dict_get dr "currency") (currency payment))
  then Ok (false, "CURRENCY_MISMATCH") else
  match Decimal_of_str (value payment),
        Decimal_of_str (py_str (dict_get_or dr "maximum_value" (VStr "0"))) with
  | Some payment_value, Some maximum_value =>
      nonpositive <- dec_le payment_value dec_zero ;;
      if nonpositive then Ok (false, "INVALID_PAYMENT_VALUE") else
      total_paid <- sum_payments ledger (decision_id payment) ;;
      new_total <- dec_add total_paid payment_value ;;
      exceeds <- dec_gt new_total maximum_value ;;
      if exceeds then Ok (false, "EXCEEDS_MAXIMUM_VALUE") else
      expired <- exception_expired dr payment_dt ;;
      if expired then Ok (false, "EXCEPTION_EXPIRED") else
      Ok (true, "AUTHORIZED")
  | _, _ => Ok (false, "INVALID_NUMERIC_VALUE")
  end
  end.

End Fides.

(** ** A concrete library for the examples

    The general theorems hold for every [PyLib].  The examples further down
    run the functions on concrete inputs, so they need concrete library
    calls: SHA-256 itself, the compact sorted JSON of a record, and the
    parsers restricted to the notations the examples are written in (a
    string outside the fragment is refused, which only the examples see). *)
Module Concrete.

(** *** SHA-256 (FIPS 180-4) on the bytes of a string *)

Definition mask32 (x : Z) : Z := x mod 2 ^ 32.
Definition rotr (n x : Z) : Z :=
  Z.lor (Z.shiftr x n) (mask32 (Z.shiftl x (32 - n))).
Definition Ch (x y z : Z) : Z :=
  Z.lxor (Z.land x y) (Z.land (Z.lxor x (2 ^ 32 - 1)) z).
Definition Maj (x y z : Z) : Z :=
  Z.lxor (Z.lxor (Z.land x y) (Z.land x z)) (Z.land y z).
Definition Sigma0 (x : Z) : Z := Z.lxor (Z.lxor (rotr 2 x) (rotr 13 x)) (rotr 22 x).
Definition Sigma1 (x : Z) : Z := Z.lxor (Z.lxor (rotr 6 x) (rotr 11 x)) (rotr 25 x).
Definition sigma0 (x : Z) : Z := Z.lxor (Z.lxor (rotr 7 x) (rotr 18 x)) (Z.shiftr x 3).
Definition sigma1 (x : Z) : Z := Z.lxor (Z.lxor (rotr 17 x) (rotr 19 x)) (Z.shiftr x 10).

(** The round constants and the initial hash value are the first 32 bits
    of the fractional parts of the cube roots, and of the square roots, of
    the first primes. *)
Definition first_primes : list Z :=
  [ 2; 3; 5; 7; 11; 13; 17; 19; 23; 29; 31; 37; 41; 43; 47; 53; 59; 61; 67;
    71; 73; 79; 83; 89; 97; 101; 103; 107; 109; 113; 127; 131; 137; 139; 149;
    151; 157; 163; 167; 173; 179; 181; 191; 193; 197; 199; 211; 223; 227; 229;
    233; 239; 241; 251; 257; 263; 269; 271; 277; 281; 283; 293; 307; 311 ].

(** The largest [r] below [2^bits] with [r^3 <= n], bit by bit. *)
Fixpoint cube_root (bits : nat) (n r : Z) : Z :=
  match bits with
  | O => r
  | S bits' =>
      let r' := r + 2 ^ Z.of_nat bits' in
      cube_root bits' n (if r' * r' * r' <=? n then r' else r)
  end.

Definition K256 : list Z :=
  Eval vm_compute in
    (fun p => mask32 (cube_root 36 (p * 2 ^ 96) 0)) <$> first_primes.

Definition H256 : list Z :=
  Eval vm_compute in
    (fun p => mask32 (Z.sqrt (p * 2 ^ 64))) <$> take 8 first_primes.

Fixpoint bytes_of_string (s : string) : list Z :=
  match s with
  | EmptyString => []
  | String a s' => Z.of_nat (nat_of_ascii a) :: bytes_of_string s'
  end.

(** The message, the byte [0x80], zero bytes up to 56 modulo 64, and the
    bit length on eight bytes. *)
Definition pad (msg : list Z) : list Z :=
  let len := Z.of_nat (length msg) in
  let zeros := Z.to_nat ((55 - len) mod 64) in
  let bits := 8 * len in
  msg ++ [0x80] ++ repeat 0 zeros
  ++ ((fun i => Z.shiftr bits (8 * (7 - Z.of_nat i)) mod 256) <$> seq 0 8).

Fixpoint words_of_bytes (fuel : nat) (bytes : list Z) : list Z :=
  match fuel, bytes with
  | S fuel', b0 :: b1 :: b2 :: b3 :: rest =>
      (b0 * 2 ^ 24 + b1 * 2 ^ 16 + b2 * 2 ^ 8 + b3) :: words_of_bytes fuel' rest
  | _, _ => []
  end.

(** The message schedule, most recent word first. *)
Fixpoint schedule (n : nat) (w : list Z) : list Z :=
  match n with
  | O => w
  | S n' =>
      let next :=
        mask32 (sigma1 (nth 1 w 0) + nth 6 w 0 + sigma0 (nth 14 w 0) + nth 15 w 0) in
      schedule n' (next :: w)
  end.

Definition round (st : list Z) (kw : Z * Z) : list Z :=
  match st with
  | [a; b; c; d; e; f; g; h] =>
      let t1 := h + Sigma1 e + Ch e f g + fst kw + snd kw in
      let t2 := Sigma0 a + Maj a b c in
      [mask32 (t1 + t2); a; b; c; mask32 (d + t1); e; f; g]
  | _ => st
  end.

Definition compress (h : list Z) (block : list Z) : list Z :=
  let w := rev (schedule 48 (rev block)) in
  let st := fold_left round (combine K256 w) h in
  (fun p => mask32 (fst p + snd p)) <$> combine h st.

Fixpoint blocks (fuel : nat) (h : list Z) (words : list Z) : list Z :=
  match fuel with
  | O => h
  | S fuel' =>
      match words with
      | [] => h
      | _ => blocks fuel' (compress h (take 16 words)) (drop 16 words)
      end
  end.

Definition hex_digit (n : Z) : ascii :=
  ascii_of_nat (Z.to_nat (if n <? 10 then 48 + n else 87 + n)).

Definition hex_of_word (w : Z) : string :=
  fold_right (fun i acc => String (hex_digit (Z.shiftr w (4 * (7 - Z.of_nat i)) mod 16)) acc)
    EmptyString (seq 0 8).

Definition sha256 (data : string) : string :=
  let bytes := pad (bytes_of_string data) in
  let words := words_of_bytes (length bytes) bytes in
  let h := blocks (length words) H256 words in
  fold_right (fun w acc => hex_of_word w +:+ acc) EmptyString h.

(** *** Compact JSON with sorted keys *)

Definition json_escape_char (a : ascii) : string :=
  let n := nat_of_ascii a in
  if (n =? 34)%nat then "\" +:+ String a EmptyString
  else if (n =? 92)%nat then "\\"
  else if (n =? 10)%nat then "\n"
  else if (n =? 13)%nat then "\r"
  else if (n =? 9)%nat then "\t"
  else if (n =? 8)%nat then "\b"
  else if (n =? 12)%nat then "\f"
  else if (n <? 32)%nat then
    "\u00" +:+ String (hex_digit (Z.of_nat (n / 16)))
                 (String (hex_digit (Z.of_nat (n mod 16))) EmptyString)
  else String a EmptyString.

Fixpoint json_escape (s : string) : string :=
  match s with
  | EmptyString => EmptyString
  | String a s' => json_escape_char a +:+ json_escape s'
  end.

Definition json_string (s : string) : string :=
  String (ascii_of_nat 34) (json_escape s +:+ String (ascii_of_nat 34) EmptyString).

Fixpoint join (sep : string) (parts : list string) : string :=
  match parts with
  | [] => EmptyString
  | [x] => x
  | x :: rest => x +:+ sep +:+ join sep rest
  end.

Fixpoint json_value (v : pyval) : string :=
  match v with
  | VNone => "null"
  | VStr s => json_string s
  | VList l => "[" +:+ join "," (List.map json_value l) +:+ "]"
  end.

Fixpoint insert_sorted (kv : string * pyval) (l : list (string * pyval))
  : list (string * pyval) :=
  match l with
  | [] => [kv]
  | kv' :: rest =>
      if String.leb (fst kv) (fst kv') then kv :: l
      else kv' :: insert_sorted kv rest
  end.

Definition sorted_items (r : record) : list (string * pyval) :=
  fold_right insert_sorted [] (map_to_list r).

Definition json_dumps_sorted (r : record) : string :=
  "{" +:+ join "," ((fun kv => json_string (fst kv) +:+ ":" +:+ json_value (snd kv))
                      <$> sorted_items r) +:+ "}".

(** *** [str] of a list whose strings need no escape *)

Fixpoint py_repr (v : pyval) : string :=
  match v with
  | VNone => "None"
  | VStr s => "'" +:+ s +:+ "'"
  | VList l => "[" +:+ join ", " (List.map py_repr l) +:+ "]"
  end.

Definition repr_of_list (l : list pyval) : string := py_repr (VList l).

(** *** Readers of digits *)

Definition digit_of (a : ascii) : option Z :=
  let n := nat_of_ascii a in
  if ((48 <=? n) && (n <=? 57))%nat then Some (Z.of_nat n - 48) else None.

(** Exactly [n] digits at the head of [s]: their value and what follows. *)
Fixpoint read_digits (n : nat) (acc : Z) (s : string) : option (Z * string) :=
  match n with
  | O => Some (acc, s)
  | S n' =>
      match s with
      | String a s' =>
          match digit_of a with
          | Some d => read_digits n' (10 * acc + d) s'
          | None => None
          end
      | EmptyString => None
      end
  end.

(** All the digits at the head of [s]: how many, their value, the rest. *)
Fixpoint read_number (count : nat) (acc : Z) (s : string) : nat * Z * string :=
  match s with
  | String a s' =>
      match digit_of a with
      | Some d => read_number (S count) (10 * acc + d) s'
      | None => (count, acc, s)
      end
  | EmptyString => (count, acc, s)
  end.

Definition expect (c : ascii) (s : string) : option string :=
  match s with
  | String a s' => if Ascii.eqb a c then Some s' else None
  | EmptyString => None
  end.

(** *** [datetime.fromisoformat] on [YYYY-MM-DDTHH:MM:SS], with or without
    an offset [+HH:MM] or [-HH:MM] *)

Definition is_leap (y : Z) : bool :=
  ((y mod 4 =? 0) && negb (y mod 100 =? 0)) || (y mod 400 =? 0).

Definition days_in_month (y m : Z) : Z :=
  if m =? 2 then (if is_leap y then 29 else 28)
  else if (m =? 4) || (m =? 6) || (m =? 9) || (m =? 11) then 30
  else 31.

(** Days from 0001-01-01 to the first day of year [y]. *)
Definition days_before_year (y : Z) : Z :=
  let p := y - 1 in
  365 * p + p / 4 - p / 100 + p / 400.

Fixpoint days_before_month (y : Z) (m : nat) : Z :=
  match m with
  | O => 0
  | S m' => days_before_month y m' + days_in_month y (Z.of_nat m)
  end.

Definition wall_clock (y mo d h mi s : Z) : Z :=
  let days := days_before_year y + days_before_month y (Z.to_nat (mo - 1)) + (d - 1) in
  ((days * 24 + h) * 60 + mi) * 60 * 1000000 + s * 1000000.

Definition read_offset (s : string) : option (option Z) :=
  match s with
  | EmptyString => Some None
  | String sign s1 =>
      let negative := Ascii.eqb sign "-"%char in
      if negb (negative || Ascii.eqb sign "+"%char) then None
      else
        '(h, s2) ← read_digits 2 0 s1;
        s3 ← expect ":"%char s2;
        '(mi, s4) ← read_digits 2 0 s3;
        match s4 with
        | EmptyString =>
            if (h <? 24) && (mi <? 60) then
              let off := (h * 60 + mi) * 60 * 1000000 in
              Some (Some (if negative then - off else off))
            else None
        | _ => None
        end
  end.

Definition fromisoformat_basic (s : string) : option datetime :=
  '(y, s) ← read_digits 4 0 s;
  s ← expect "-"%char s;
  '(mo, s) ← read_digits 2 0 s;
  s ← expect "-"%char s;
  '(d, s) ← read_digits 2 0 s;
  s ← expect "T"%char s;
  '(h, s) ← read_digits 2 0 s;
  s ← expect ":"%char s;
  '(mi, s) ← read_digits 2 0 s;
  s ← expect ":"%char s;
  '(sec, s) ← read_digits 2 0 s;
  off ← read_offset s;
  if (1 <=? y) && (1 <=? mo) && (mo <=? 12) && (1 <=? d)
     && (d <=? days_in_month y mo) && (h <? 24) && (mi <? 60) && (sec <? 60)
  then Some (mk_datetime (wall_clock y mo d h mi sec) off)
  else None.

(** *** The [Decimal] constructor on [sign digits . digits], on [NaN] and on
    [Infinity] *)

Definition read_sign (s : string) : bool * string :=
  match s with
  | String a s' =>
      if Ascii.eqb a "-"%char then (true, s')
      else if Ascii.eqb a "+"%char then (false, s')
      else (false, s)
  | EmptyString => (false, s)
  end.

Definition Decimal_plain (s : string) : option Decimal :=
  let '(negative, body) := read_sign s in
  if bool_decide (body = "NaN") then Some (DNaN false)
  else if bool_decide (body = "sNaN") then Some (DNaN true)
  else if bool_decide (body = "Infinity") then Some (DInf negative)
  else
    let '(n_int, int_part, rest) := read_number 0 0 body in
    let '(n_frac, coeff, rest) :=
      match rest with
      | String dot rest' =>
          if Ascii.eqb dot "."%char then read_number 0 int_part rest'
          else (0%nat, int_part, rest)
      | EmptyString => (0%nat, int_part, rest)
      end in
    match rest with
    | EmptyString =>
        if (n_int + n_frac =? 0)%nat then None
        else Some (DFin (if negative then - coeff else coeff) (- Z.of_nat n_frac))
    | _ => None
    end.

#[export] Instance python : PyLib := {
  sha256_hexdigest := sha256;
  json_dumps := json_dumps_sorted;
  fromisoformat := fromisoformat_basic;
  Decimal_of_str := Decimal_plain;
  repr_list := repr_of_list
}.

End Concrete.

(** ** The vocabulary of the specification *)

Section Vocabulary.
Context `{PyLib}.

(** The error classes of the specification are told apart, in the code, by
    the message of a [ValueError]. *)
Definition ChainError (e : exn) : Prop :=
  e = ValueError "Invalid genesis hash"
  \/ e = ValueError "Hash chain validation failed".

Definition LookupError (target_decision_id : string) (e : exn) : Prop :=
  e = ValueError ("Target decision not found: " +:+ target_decision_id)
  \/ e = ValueError ("Decision already revoked: " +:+ target_decision_id).

(** The record fails the check that [append] makes on this ledger. *)
Definition fails_chain_check (record : record) (l : FidesLedger) : Prop :=
  (records l = [] /\ verify_genesis record = false)
  \/ (exists last_record,
        _get_last_record l = Some last_record
        /\ dict_get record "previous_record_hash" <> VStr (record_hash last_record)).

(** The operations of the ledger that write. *)
Inductive ledger_write : Type :=
| WriteRecord (record : record)
| WritePayment
    (payment_id decision_id beneficiary currency value payment_date : string).

Definition run_write (w : ledger_write) (l : FidesLedger) : FidesLedger :=
  match w with
  | WriteRecord record => snd (append_record record l)
  | WritePayment payment_id decision_id beneficiary currency value payment_date =>
      snd (record_payment payment_id decision_id beneficiary currency value
             payment_date l)
  end.

(** The line feed, which [$] lets through at the end of a string. *)
Definition newline : string := String (ascii_of_nat 10) EmptyString.

(** A sequence of writes, one after the other. *)
Definition run_writes (ws : list ledger_write) (l : FidesLedger) : FidesLedger :=
  foldl (fun l w => run_write w l) l ws.

(** A ledger reached from a new one through the factory (and the payment
    log), whatever the outcome of each call. *)
Inductive factory_built : FidesLedger -> Prop :=
| built_new : factory_built new_ledger
| built_decision
    fresh_uuid now authority_id deciders_id act_type currency maximum_value
    beneficiary legal_basis decision_date signatures decision_id
    record_timestamp l :
    factory_built l ->
    factory_built
      (snd (create_decision_record fresh_uuid now authority_id deciders_id
              act_type currency maximum_value beneficiary legal_basis
              decision_date signatures decision_id record_timestamp l))
| built_revocation
    fresh_uuid now target_decision_id authority_id deciders_id
    revocation_reason signatures revocation_id revocation_date
    record_timestamp l :
    factory_built l ->
    factory_built
      (snd (create_revocation_record fresh_uuid now target_decision_id
              authority_id deciders_id revocation_reason signatures
              revocation_id revocation_date record_timestamp l))
| built_payment
    payment_id decision_id beneficiary currency value payment_date l :
    factory_built l ->
    factory_built
      (snd (record_payment payment_id decision_id beneficiary currency value
              payment_date l)).

(** Checks 1 to 6 of the decision procedure pass for [payment], on the
    decision record [dr] and with [payment_dt] the date of the payment. *)
Record passes_1_to_6
    (ledger : FidesLedger) (payment : Payment) (dr : record)
    (payment_dt : datetime) : Prop := {
  found : find_decision_record ledger (decision_id payment) = Some dr;
  not_revoked : is_revoked ledger (decision_id payment) = false;
  structure_valid : exists errors, validate_dr dr = Ok (true, errors);
  payment_date_valid : parse_date (VStr (payment_date payment)) = Ok payment_dt;
  not_before_decision :
    exists decision_date decision_dt,
      dr !! "decision_date" = Some decision_date
      /\ parse_date decision_date = Ok decision_dt
      /\ dt_lt payment_dt decision_dt = Ok false;
  beneficiary_matches : dict_get dr "beneficiary" = VStr (beneficiary payment);
  currency_matches : dict_get dr "currency" = VStr (currency payment)
}.

(** Check 7 as the code computes it: the sum is the one of the default
    context. *)
Definition within_limit
    (ledger : FidesLedger) (payment : Payment) (dr : record) : Prop :=
  exists payment_value maximum_value total_paid new_total,
    Decimal_of_str (value payment) = Some payment_value
    /\ Decimal_of_str (py_str (dict_get_or dr "maximum_value" (VStr "0")))
       = Some maximum_value
    /\ dec_gt payment_value dec_zero = Ok true
    /\ sum_payments ledger (decision_id payment) = Ok total_paid
    /\ dec_add total_paid payment_value = Ok new_total
    /\ dec_le new_total maximum_value = Ok true.

(** Check 7 as the specification words it: the value is a positive decimal
    and [sum_payments + value <= maximum_value], the sum taken exactly. *)
Definition within_limit_exact
    (ledger : FidesLedger) (payment : Payment) (dr : record) : Prop :=
  exists payment_value maximum_value total_paid new_total,
    Decimal_of_str (value payment) = Some payment_value
    /\ Decimal_of_str (py_str (dict_get_or dr "maximum_value" (VStr "0")))
       = Some maximum_value
    /\ dec_gt payment_value dec_zero = Ok true
    /\ sum_payments ledger (decision_id payment) = Ok total_paid
    /\ dec_add_exact total_paid payment_value = Ok new_total
    /\ dec_le new_total maximum_value = Ok true.

(** The value is exactly the headroom left: [sum_payments + value =
    maximum_value]. *)
Definition exactly_headroom
    (ledger : FidesLedger) (payment : Payment) (dr : record) : Prop :=
  exists payment_value maximum_value total_paid new_total,
    Decimal_of_str (value payment) = Some payment_value
    /\ Decimal_of_str (py_str (dict_get_or dr "maximum_value" (VStr "0")))
       = Some maximum_value
    /\ dec_gt payment_value dec_zero = Ok true
    /\ sum_payments ledger (decision_id payment) = Ok total_paid
    /\ dec_add_exact total_paid payment_value = Ok new_total
    /\ dec_cmp new_total maximum_value = Ok Eq.

(** The addition of check 7 keeps every digit: the default context returns
    the exact sum. *)
Definition addition_is_exact (ledger : FidesLedger) (payment : Payment) : Prop :=
  forall payment_value total_paid,
    Decimal_of_str (value payment) = Some payment_value ->
    sum_payments ledger (decision_id payment) = Ok total_paid ->
    dec_add total_paid payment_value = dec_add_exact total_paid payment_value.

(** The rules of the specification for a record whose required fields are
    all present, each with the code reported when it is violated, in the
    order of the codes.  The temporal rule of a decision record is given as
    the outcome [after] of comparing its two timestamps. *)
Definition nonempty_list (v : pyval) : bool :=
  match v with
  | VList (_ :: _) => true
  | _ => false
  end.

Definition nonempty_str (v : pyval) : bool :=
  match v with
  | VStr (String _ _) => true
  | _ => false
  end.

Definition same_count (deciders_id signatures : pyval) : bool :=
  match deciders_id, signatures with
  | VList ds, VList ss => bool_decide (length ds = length ss)
  | _, _ => true
  end.

Definition dr_rules (dr : record) (after : bool) : list (bool * string) :=
  [ (is_uuid_v4 (dict_get dr "decision_id"), "INVALID_DECISION_ID");
    (nonempty_list (dict_get dr "deciders_id"), "INVALID_DECIDERS_ID");
    (nonempty_str (dict_get dr "act_type"), "INVALID_ACT_TYPE");
    (is_positive_decimal (dict_get dr "maximum_value"), "INVALID_MAXIMUM_VALUE");
    (is_iso8601 (dict_get dr "decision_date"), "INVALID_DECISION_DATE");
    (is_iso8601 (dict_get dr "record_timestamp"), "INVALID_RECORD_TIMESTAMP");
    (negb after, "DECISION_DATE_AFTER_RECORD_TIMESTAMP");
    (nonempty_list (dict_get dr "signatures"), "INVALID_SIGNATURES");
    (same_count (dict_get dr "deciders_id") (dict_get dr "signatures"),
     "DECIDERS_SIGNATURES_MISMATCH") ].

Definition rr_rules (rr : record) : list (bool * string) :=
  [ (is_uuid_v4 (dict_get rr "revocation_id"), "INVALID_REVOCATION_ID");
    (is_uuid_v4 (dict_get rr "target_decision_id"), "INVALID_TARGET_DECISION_ID");
    (nonempty_list (dict_get rr "deciders_id"), "INVALID_DECIDERS_ID");
    (is_iso8601 (dict_get rr "revocation_date"), "INVALID_REVOCATION_DATE");
    (is_iso8601 (dict_get rr "record_timestamp"), "INVALID_RECORD_TIMESTAMP");
    (nonempty_list (dict_get rr "signatures"), "INVALID_SIGNATURES") ].

(** The codes of all the rules that do not hold, in order. *)
Fixpoint violated (rules : list (bool * string)) : list string :=
  match rules with
  | [] => []
  | (holds, code) :: rest =>
      if holds then violated rest else code :: violated rest
  end.

End Vocabulary.

(** ** Concrete ledgers, records and payments *)

Module Examples.
Import Concrete.

Definition uuid1 : string := "00000000-0000-4000-8000-000000000001".
Definition uuid2 : string := "00000000-0000-4000-8000-000000000002".
Definition clock : string := "2024-06-01T00:00:00Z".

(** The ledger of the unit tests: one decision of 10000.00 BRL. *)
Definition ledger_dr : FidesLedger :=
  Eval vm_compute in
  snd (create_decision_record uuid1 clock
         "GOV-TEST-001" ["DECIDER-001"] "contract" "BRL" "10000.00"
         "SUPPLIER-TEST" "Test Law" "2024-01-01T10:00:00Z" ["SIG-001"]
         None (Some "2024-01-01T10:30:00Z") new_ledger).

(** Its genesis hash and its decision record. *)
Definition genesis : string :=
  Eval vm_compute in
  genesis_hash (VStr "GOV-TEST-001") (VStr "2024-01-01T10:30:00Z").

Definition the_dr : record :=
  dr_dict uuid1 "GOV-TEST-001" ["DECIDER-001"] "contract" "BRL" "10000.00"
    "SUPPLIER-TEST" "Test Law" "2024-01-01T10:00:00Z" genesis
    "2024-01-01T10:30:00Z" ["SIG-001"].

Definition pay (value payment_date : string) : Payment :=
  mk_payment uuid1 "SUPPLIER-TEST" "BRL" value payment_date.

(** The same ledger after a payment of 6000.00 was recorded. *)
Definition ledger_paid : FidesLedger :=
  Eval vm_compute in
  snd (record_payment "PAY-001" uuid1 "SUPPLIER-TEST" "BRL" "6000.00"
         "2024-01-15T14:00:00Z" ledger_dr).

(** The same ledger after the decision was revoked through the factory. *)
Definition ledger_revoked : FidesLedger :=
  Eval vm_compute in
  snd (create_revocation_record uuid2 clock uuid1 "GOV-TEST-001"
         ["DECIDER-001"] "Contract cancelled" ["SIG-001"] None None
         (Some "2024-02-01T09:00:00Z") ledger_dr).

(** A revocation record for the decision, linked to the last record of
    [ledger_dr]. *)
Definition the_rr : record :=
  Eval vm_compute in
  rr_dict uuid2 uuid1 "GOV-TEST-001" ["DECIDER-001"] "Contract cancelled"
    "2024-02-01T09:00:00Z" (record_hash the_dr) "2024-02-01T09:00:00Z"
    ["SIG-001"].

(** A term-limited decision, appended to a new ledger as its first record. *)
Definition sdr_with (extra : record -> record) : record :=
  <["record_type" := VStr "SDR"]> (extra the_dr).

Definition the_sdr : record :=
  sdr_with (insert "maximum_term" (VStr "2024-06-30T00:00:00Z")).

Definition ledger_sdr : FidesLedger :=
  Eval vm_compute in snd (append_record the_sdr new_ledger).

(** The same with no [maximum_term] at all. *)
Definition the_sdr_open : record := sdr_with id.

Definition ledger_sdr_open : FidesLedger :=
  Eval vm_compute in snd (append_record the_sdr_open new_ledger).

(** A decision record whose [decision_date] carries no zone while its
    [record_timestamp] does. *)
Definition dr_mixed_zones : record :=
  dr_dict uuid1 "GOV-TEST-001" ["DECIDER-001"] "contract" "BRL" "10000.00"
    "SUPPLIER-TEST" "Test Law" "2024-01-01T10:00:00" genesis
    "2024-01-01T10:30:00Z" ["SIG-001"].

(** A decision whose limit has 29 digits, and the ledger that holds it. *)
Definition big : string := "10000000000000000000000000009".

Definition the_big_dr : record :=
  dr_dict uuid1 "GOV-TEST-001" ["DECIDER-001"] "contract" "BRL" big
    "SUPPLIER-TEST" "Test Law" "2024-01-01T10:00:00Z" genesis
    "2024-01-01T10:30:00Z" ["SIG-001"].

Definition ledger_big : FidesLedger :=
  Eval vm_compute in
  snd (create_decision_record uuid1 clock
         "GOV-TEST-001" ["DECIDER-001"] "contract" "BRL" big
         "SUPPLIER-TEST" "Test Law" "2024-01-01T10:00:00Z" ["SIG-001"]
         None (Some "2024-01-01T10:30:00Z") new_ledger).

(** A record that is not linked to the genesis hash of its authority. *)
Definition dr_unlinked : record :=
  <["previous_record_hash" := VStr "0000"]> the_dr.

(** A table of records edited from outside: the row of [ledger_sdr], whose
    link is a genesis hash, put after the row of [ledger_dr]. *)
Definition ledger_spliced : FidesLedger :=
  Eval vm_compute in mk_ledger (records ledger_dr ++ records ledger_sdr) [].

(** The ledger of the unit tests with a payment logged whose value is not a
    number. *)
Definition garbled_row : payment_row :=
  mk_payment_row "PAY-002" uuid1 "SUPPLIER-TEST" "BRL" "six thousand"
    "2024-01-15T14:00:00Z".

Definition ledger_garbled : FidesLedger :=
  Eval vm_compute in
  snd (record_payment "PAY-002" uuid1 "SUPPLIER-TEST" "BRL" "six thousand"
         "2024-01-15T14:00:00Z" ledger_dr).

(** Writes of both kinds: the revocation of the decision, a record that is
    not linked, and a payment. *)
Definition some_writes : list ledger_write :=
  [ WriteRecord the_rr; WriteRecord dr_unlinked;
    WritePayment "PAY-001" uuid1 "SUPPLIER-TEST" "BRL" "6000.00"
      "2024-01-15T14:00:00Z" ].

(** A payment date before the decision of the unit tests. *)
Definition december_31 : string := "2023-12-31T10:00:00Z".

(** The reading of a timestamp, as [parse_date] returns it. *)
Definition date_of (s : string) : datetime :=
  default (mk_datetime 0 None) (fromisoformat (replace_Z s)).

Definition january_15 : string := "2024-01-15T14:00:00Z".
Definition july_20 : string := "2024-07-20T14:00:00Z".

(** A payment date written without a zone. *)
Definition january_15_naive : string := "2024-01-15T14:00:00".

End Examples.

(** ** Properties *)

Section Properties.
Context `{PyLib}.

(** *** Values *)

Lemma eq_str_true (v : pyval) (s : string) : eq_str v s = true <-> v = VStr s.
Proof.
  destruct v as [|t|items]; simpl; split; try discriminate.
  - intros Ht. apply bool_decide_eq_true in Ht. by subst.
  - intros [= ->]. by apply bool_decide_eq_true.
Qed.

Lemma eq_str_false (v : pyval) (s : string) : eq_str v s = false <-> v <> VStr s.
Proof.
  rewrite <- eq_str_true. destruct (eq_str v s); split; congruence.
Qed.

Lemma parse_date_is_iso8601 (v : pyval) (d : datetime) :
  parse_date v = Ok d -> is_iso8601 v = true.
Proof.
  destruct v as [|s|items]; simpl; try discriminate.
  by destruct (fromisoformat (replace_Z s)).
Qed.

Lemma is_iso8601_parse_date (v : pyval) :
  is_iso8601 v = true -> exists d, parse_date v = Ok d.
Proof.
  destruct v as [|s|items]; simpl; try discriminate.
  destruct (fromisoformat (replace_Z s)) as [d|]; [eauto | discriminate].
Qed.

Lemma dec_le_false_gt (a b : Decimal) :
  dec_le a b = Ok false <-> dec_gt a b = Ok true.
Proof.
  unfold dec_le, dec_gt. destruct (dec_cmp a b) as [[]|]; simpl; split; congruence.
Qed.

Lemma dec_gt_false_le (a b : Decimal) :
  dec_gt a b = Ok false <-> dec_le a b = Ok true.
Proof.
  unfold dec_le, dec_gt. destruct (dec_cmp a b) as [[]|]; simpl; split; congruence.
Qed.

Lemma dec_cmp_eq_le (a b : Decimal) : dec_cmp a b = Ok Eq -> dec_le a b = Ok true.
Proof. unfold dec_le. by intros ->. Qed.

(** A coefficient below [10^k] has at most [k] digits. *)
Lemma digits_loop_bound (fuel : nat) (n k : Z) :
  0 <= n < 10 ^ k -> 1 <= k -> digits_loop fuel n <= k.
Proof.
  revert n k. induction fuel as [|fuel IH]; intros n k Hn Hk; simpl; [lia|].
  destruct (n <? 10) eqn:Hsmall; [lia|].
  apply Z.ltb_ge in Hsmall.
  assert (10 ^ k = 10 * 10 ^ (k - 1)) as Hpow
    by (rewrite <- Z.pow_succ_r by lia; f_equal; lia).
  assert (2 <= k).
  { destruct (Z.eq_dec k 1) as [-> | ?]; [|lia]. change (10 ^ 1) with 10 in Hn. lia. }
  specialize (IH (n / 10) (k - 1)).
  assert (0 <= n / 10 < 10 ^ (k - 1)); [|lia].
  split; [apply Z.div_pos; lia|].
  apply Z.div_lt_upper_bound; lia.
Qed.

(** [_fix] leaves alone a number of at most 28 digits whose exponent is in
    range. *)
Lemma dec_fix_exact (c e : Z) :
  Z.abs c < 10 ^ prec -> Etiny <= e <= Etop -> dec_fix c e = Ok (DFin c e).
Proof.
  intros Hsmall Hrange. unfold dec_fix.
  destruct (c =? 0) eqn:Hzero.
  - apply Z.eqb_eq in Hzero as ->. do 2 f_equal.
    unfold Etiny, Etop, Emax, Emin, prec in *. lia.
  - assert (ndigits (Z.abs c) <= prec) as Hdigits.
    { unfold ndigits. apply digits_loop_bound; [|unfold prec; lia].
      rewrite Z.abs_idemp. lia. }
    cbv zeta.
    replace (ndigits (Z.abs c) + e - prec >? Etop) with false
      by (symmetry; rewrite Z.gtb_ltb; apply Z.ltb_ge; lia).
    replace (e <? Z.max (ndigits (Z.abs c) + e - prec) Etiny) with false
      by (symmetry; apply Z.ltb_ge; lia).
    reflexivity.
Qed.

(** The sum of two finite numbers is exact when it has at most 28 digits and
    the smaller exponent is in range. *)
Lemma dec_add_small (c1 e1 c2 e2 : Z) :
  let e := Z.min e1 e2 in
  Z.abs (c1 * 10 ^ (e1 - e) + c2 * 10 ^ (e2 - e)) < 10 ^ prec ->
  Etiny <= e <= Etop ->
  dec_add (DFin c1 e1) (DFin c2 e2) = dec_add_exact (DFin c1 e1) (DFin c2 e2).
Proof.
  intros e Hsmall Hrange. unfold dec_add. simpl.
  by apply dec_fix_exact.
Qed.

(** *** The ledger *)

Lemma record_count_zero (l : FidesLedger) :
  (_get_record_count l =? 0) = true <-> records l = [].
Proof.
  unfold _get_record_count. rewrite Z.eqb_eq.
  destruct (records l); simpl; split; (lia || congruence).
Qed.

Lemma last_record_none (l : FidesLedger) :
  _get_last_record l = None <-> records l = [].
Proof.
  unfold _get_last_record. rewrite fmap_None. apply last_None.
Qed.

(** The check of [append_record] raises exactly on a record that fails it,
    and then with one of the two chain errors. *)
Lemma check_chain_raise (record : record) (l : FidesLedger) (e : exn) :
  check_chain record l = Raise e ->
  ChainError e /\ fails_chain_check record l.
Proof.
  unfold check_chain, ChainError, fails_chain_check.
  destruct (_get_record_count l =? 0) eqn:Hcount.
  - apply record_count_zero in Hcount.
    destruct (verify_genesis record); simpl; [discriminate|].
    intros [= <-]. auto.
  - destruct (_get_last_record l) as [last_record|] eqn:Hlast.
    + unfold verify_chain_link.
      destruct (eq_str _ _) eqn:Heq; simpl; [discriminate|].
      intros [= <-]. apply eq_str_false in Heq. split; [auto | right; eauto].
    + apply last_record_none, record_count_zero in Hlast. congruence.
Qed.

Lemma check_chain_fails (record : record) (l : FidesLedger) :
  fails_chain_check record l ->
  exists e, check_chain record l = Raise e /\ ChainError e.
Proof.
  unfold check_chain, ChainError.
  intros [[Hempty Hgenesis] | (last_record & Hlast & Hlink)].
  - apply record_count_zero in Hempty as ->. rewrite Hgenesis. simpl. eauto.
  - destruct (_get_record_count l =? 0) eqn:Hcount.
    + apply record_count_zero, last_record_none in Hcount. congruence.
    + rewrite Hlast. unfold verify_chain_link.
      apply eq_str_false in Hlink as ->. simpl. eauto.
Qed.

Lemma check_chain_ok (record : record) (l : FidesLedger) (u : unit) :
  check_chain record l = Ok u ->
  match _get_last_record l with
  | None => verify_genesis record = true
  | Some last_record => verify_chain_link record last_record = true
  end.
Proof.
  unfold check_chain.
  destruct (_get_record_count l =? 0) eqn:Hcount.
  - apply record_count_zero, last_record_none in Hcount as ->.
    by destruct (verify_genesis record).
  - destruct (_get_last_record l) as [last_record|]; [|discriminate].
    by destruct (verify_chain_link record last_record).
Qed.

Lemma insert_record_data (record : record) (rec_hash : string) (row : record_row) :
  insert_record record rec_hash = Ok row ->
  row_record_data row = record
  /\ bind_text (dict_get_or record "record_type" (VStr "DR"))
     = Ok (Some (row_record_type row))
  /\ bind_text (dict_get record "decision_id") = Ok (row_decision_id row)
  /\ bind_text (dict_get record "target_decision_id")
     = Ok (row_target_decision_id row).
Proof.
  unfold insert_record, not_null, of_option.
  repeat (match goal with
          | |- context [bind_text ?v] => destruct (bind_text v) as [[?|]|]
          end; simpl; try discriminate);
    intros [= <-]; simpl; auto.
Qed.

Lemma insert_record_raise (record : record) (rec_hash : string) (e : exn) :
  insert_record record rec_hash = Raise e -> e = sqlite3_Error.
Proof.
  unfold insert_record, not_null, of_option, bind_text.
  repeat (match goal with
          | |- context [match ?v with VNone => _ | _ => _ end] => destruct v
          end; simpl; try discriminate; try congruence).
Qed.

Lemma append_record_ok (record : record) (l l' : FidesLedger) (h : string) :
  append_record record l = (Ok h, l') ->
  check_chain record l = Ok tt
  /\ h = record_hash record
  /\ exists row,
       insert_record record (record_hash record) = Ok row
       /\ l' = mk_ledger (records l ++ [row]) (payments l).
Proof.
  unfold append_record.
  destruct (check_chain record l) as [[]|]; [|discriminate].
  destruct (insert_record record (record_hash record)) as [row|]; [|discriminate].
  intros [= <- <-]. eauto.
Qed.

Lemma append_record_raise (record : record) (l l' : FidesLedger) (e : exn) :
  append_record record l = (Raise e, l') -> l' = l.
Proof.
  unfold append_record.
  destruct (check_chain record l) as [[]|]; [|congruence].
  destruct (insert_record record (record_hash record)); congruence.
Qed.

(** Whatever its outcome, [append_record] keeps the rows that were there and
    does not touch the payment log. *)
Lemma append_record_extends (record : record) (l : FidesLedger) :
  let l' := snd (append_record record l) in
  (l' = l \/ get_all_records l' = get_all_records l ++ [record])
  /\ payments l' = payments l.
Proof.
  simpl. destruct (append_record record l) as [[h|e] l'] eqn:Happend; simpl.
  - apply append_record_ok in Happend as (_ & _ & row & Hrow & ->).
    apply insert_record_data in Hrow as (Hdata & _).
    split; [right|done]. unfold get_all_records. simpl.
    by rewrite fmap_app, <- Hdata.
  - apply append_record_raise in Happend as ->. auto.
Qed.

(** *** Chain integrity *)

Lemma get_all_records_last (l : FidesLedger) :
  last (get_all_records l) = _get_last_record l.
Proof. unfold get_all_records, _get_last_record. apply fmap_last. Qed.

Lemma default_last_cons {A : Type} (a b x : A) (l : list A) :
  default a (last (x :: l)) = default b (last (x :: l)).
Proof.
  destruct (last (x :: l)) eqn:Hlast; [done|].
  by apply last_None in Hlast.
Qed.

Lemma verify_links_snoc (i : nat) (previous : record) (rest : list record)
    (current : record) :
  verify_links i previous rest = (true, None) ->
  verify_chain_link current (default previous (last rest)) = true ->
  verify_links i previous (rest ++ [current]) = (true, None).
Proof.
  revert i previous.
  induction rest as [|next rest IH]; intros i previous Hrest Hlink; simpl in *.
  - by rewrite Hlink.
  - destruct (verify_chain_link next previous); simpl in *; [|discriminate].
    apply IH; [done|].
    destruct rest as [|r rest']; [done|].
    by rewrite (default_last_cons next previous).
Qed.

(** A successful [append_record] keeps a valid chain valid. *)
Lemma append_record_keeps_integrity
    (record : record) (l l' : FidesLedger) (h : string) :
  verify_chain_integrity l = (true, None) ->
  append_record record l = (Ok h, l') ->
  verify_chain_integrity l' = (true, None).
Proof.
  intros Hvalid Happend.
  apply append_record_ok in Happend as (Hcheck & _ & row & Hrow & ->).
  apply insert_record_data in Hrow as (Hdata & _).
  apply check_chain_ok in Hcheck.
  rewrite <- get_all_records_last in Hcheck.
  unfold verify_chain_integrity in *.
  replace (get_all_records {| records := records l ++ [row]; payments := payments l |})
    with (get_all_records l ++ [record])
    by (unfold get_all_records; simpl; by rewrite fmap_app, <- Hdata).
  destruct (get_all_records l) as [|first rest]; simpl in *.
  - by rewrite Hcheck.
  - destruct (verify_genesis first); simpl in *; [|discriminate].
    apply verify_links_snoc; [done|].
    destruct (last (first :: rest)) as [last_record|] eqn:Hlast;
      [|by apply last_None in Hlast].
    destruct rest as [|r rest']; simpl in *; [by simplify_eq|].
    by rewrite Hlast.
Qed.

Lemma append_record_any_keeps_integrity (record : record) (l : FidesLedger) :
  verify_chain_integrity l = (true, None) ->
  verify_chain_integrity (snd (append_record record l)) = (true, None).
Proof.
  intros Hvalid.
  destruct (append_record record l) as [[h|e] l'] eqn:Happend; simpl.
  - eauto using append_record_keeps_integrity.
  - by apply append_record_raise in Happend as ->.
Qed.

(** The ledger a factory call leaves is the one it was given, or the one an
    [append_record] left. *)
Lemma create_decision_record_ledger
    fresh_uuid now authority_id deciders_id act_type currency maximum_value
    beneficiary legal_basis decision_date signatures decision_id
    record_timestamp (l : FidesLedger) :
  let l' :=
    snd (create_decision_record fresh_uuid now authority_id deciders_id
           act_type currency maximum_value beneficiary legal_basis
           decision_date signatures decision_id record_timestamp l) in
  l' = l \/ exists dr, l' = snd (append_record dr l).
Proof.
  simpl. unfold create_decision_record.
  destruct (validate_dr _) as [[[] errors]|]; simpl; auto.
  match goal with |- context [append_record ?dr l] =>
    destruct (append_record dr l) as [[h|e] l'] eqn:Happend
  end; simpl; right; eexists; by rewrite Happend.
Qed.

Lemma create_revocation_record_ledger
    fresh_uuid now target_decision_id authority_id deciders_id
    revocation_reason signatures revocation_id revocation_date
    record_timestamp (l : FidesLedger) :
  let l' :=
    snd (create_revocation_record fresh_uuid now target_decision_id
           authority_id deciders_id revocation_reason signatures
           revocation_id revocation_date record_timestamp l) in
  l' = l \/ exists rr, l' = snd (append_record rr l).
Proof.
  simpl. unfold create_revocation_record.
  destruct (find_decision_record l target_decision_id); simpl; auto.
  destruct (is_revoked l target_decision_id); simpl; auto.
  destruct (validate_rr _) as [[[] errors]|]; simpl; auto.
  match goal with |- context [append_record ?rr l] =>
    destruct (append_record rr l) as [[h|e] l'] eqn:Happend
  end; simpl; right; eexists; by rewrite Happend.
Qed.

Lemma record_payment_records
    payment_id decision_id beneficiary currency value payment_date
    (l : FidesLedger) :
  records (snd (record_payment payment_id decision_id beneficiary currency
                  value payment_date l)) = records l.
Proof. unfold record_payment. by case_bool_decide. Qed.

(** C5. For every chain of records built solely through the factory
    operations [create_decision_record] and [create_revocation_record],
    starting from a new ledger, [verify_chain_integrity] returns valid with
    no invalid index. *)
Theorem factory_chain_is_valid (l : FidesLedger) :
  factory_built l -> verify_chain_integrity l = (true, None).
Proof.
  induction 1 as [| u n a ds act cur mx ben lb dd sigs did ts l _ IH
                  | u n target a ds reason sigs rid rd ts l _ IH
                  | pid did ben cur val pd l _ IH].
  - reflexivity.
  - destruct (create_decision_record_ledger u n a ds act cur mx ben lb dd
                sigs did ts l) as [-> | [dr ->]];
      [done | by apply append_record_any_keeps_integrity].
  - destruct (create_revocation_record_ledger u n target a ds reason sigs
                rid rd ts l) as [-> | [rr ->]];
      [done | by apply append_record_any_keeps_integrity].
  - unfold verify_chain_integrity, get_all_records in *.
    by rewrite record_payment_records.
Qed.

(** *** Appending *)

(** A record that passes the chain check and whose indexed fields are
    strings (or are left out, for the optional ones) is appended. *)
Lemma append_record_succeeds
    (record : record) (l : FidesLedger)
    (record_type authority_id record_timestamp : string)
    (decision_id revocation_id target_decision_id : option string) :
  ~ fails_chain_check record l ->
  dict_get_or record "record_type" (VStr "DR") = VStr record_type ->
  dict_get record "authority_id" = VStr authority_id ->
  dict_get record "record_timestamp" = VStr record_timestamp ->
  dict_get record "decision_id" = from_option VStr VNone decision_id ->
  dict_get record "revocation_id" = from_option VStr VNone revocation_id ->
  dict_get record "target_decision_id"
  = from_option VStr VNone target_decision_id ->
  exists l',
    append_record record l = (Ok (record_hash record), l')
    /\ get_all_records l' = get_all_records l ++ [record]
    /\ payments l' = payments l.
Proof.
  intros Hpasses Htype Hauthority Htimestamp Hdecision Hrevocation Htarget.
  assert (check_chain record l = Ok tt) as Hcheck.
  { destruct (check_chain record l) as [[]|e] eqn:Hcheck; [done|].
    by apply check_chain_raise in Hcheck as [_ Hfails]. }
  assert (exists previous,
            dict_get record "previous_record_hash" = VStr previous)
    as [previous Hprevious].
  { apply check_chain_ok in Hcheck.
    destruct (_get_last_record l);
      [unfold verify_chain_link in Hcheck | unfold verify_genesis in Hcheck];
      apply eq_str_true in Hcheck; eauto. }
  unfold append_record. rewrite Hcheck. unfold insert_record.
  rewrite Htype, Hauthority, Htimestamp, Hdecision, Hrevocation, Htarget,
    Hprevious.
  destruct decision_id, revocation_id, target_decision_id; simpl;
    (eexists; split; [reflexivity|]; split; [|done];
     unfold get_all_records; simpl; by rewrite fmap_app).
Qed.

(** C7. [append(record)] fails with a ChainError exactly when the ledger is
    empty and the record fails the genesis-hash check, or the ledger is
    non-empty and [record.previous_record_hash] differs from the hash of the
    last appended record; on success the record is stored in insertion
    order, and no write of the ledger updates or deletes a stored record.
    Success is reached: a record that does not fail the check and whose
    indexed fields are strings (the optional ones strings or left out) is
    appended, its hash is returned and it is the new last record. *)
Theorem append_record_chain_error (record : record) (l : FidesLedger) :
  ((exists e, fst (append_record record l) = Raise e /\ ChainError e)
   <-> fails_chain_check record l)
  /\ (forall h l',
        append_record record l = (Ok h, l') ->
        h = record_hash record
        /\ get_all_records l' = get_all_records l ++ [record]
        /\ payments l' = payments l)
  /\ (forall w, get_all_records l `prefix_of` get_all_records (run_write w l))
  /\ (forall (record_type authority_id record_timestamp : string)
             (decision_id revocation_id target_decision_id : option string),
        ~ fails_chain_check record l ->
        dict_get_or record "record_type" (VStr "DR") = VStr record_type ->
        dict_get record "authority_id" = VStr authority_id ->
        dict_get record "record_timestamp" = VStr record_timestamp ->
        dict_get record "decision_id" = from_option VStr VNone decision_id ->
        dict_get record "revocation_id" = from_option VStr VNone revocation_id ->
        dict_get record "target_decision_id"
        = from_option VStr VNone target_decision_id ->
        exists l',
          append_record record l = (Ok (record_hash record), l')
          /\ get_all_records l' = get_all_records l ++ [record]
          /\ payments l' = payments l).
Proof.
  split; [|split; [|split]]; [| | |apply append_record_succeeds].
  - split.
    + intros (e & Hraise & Hchain). unfold append_record in Hraise.
      destruct (check_chain record l) as [[]|e'] eqn:Hcheck.
      * destruct (insert_record record (record_hash record)) as [row|e'] eqn:Hrow;
          simpl in Hraise; [discriminate|].
        injection Hraise as <-. apply insert_record_raise in Hrow as ->.
        destruct Hchain; discriminate.
      * by apply check_chain_raise in Hcheck as [_ Hfails].
    + intros Hfails. apply check_chain_fails in Hfails as (e & Hcheck & Hchain).
      exists e. unfold append_record. by rewrite Hcheck.
  - intros h l' Happend.
    pose proof (append_record_extends record l) as Hext. simpl in Hext.
    apply append_record_ok in Happend as Hok.
    destruct Hok as (_ & -> & row & Hrow & ->).
    apply insert_record_data in Hrow as (Hdata & _).
    split; [done|]. split; [|done].
    unfold get_all_records. simpl. by rewrite fmap_app, <- Hdata.
  - intros [r | payment_id decision_id beneficiary currency value payment_date];
      simpl.
    + destruct (append_record_extends r l) as [[-> | ->] _];
        [done | by apply prefix_app_r].
    + unfold get_all_records. by rewrite record_payment_records.
Qed.

(** C9. [append_record] is atomic on failure: for every ledger state and
    every record that fails the genesis or chain-link check, the error is
    raised before any insertion, so the record list and the payment log are
    unchanged by the failed append. *)
Theorem append_record_atomic_on_failure (record : record) (l : FidesLedger) :
  fails_chain_check record l ->
  exists e, append_record record l = (Raise e, l) /\ ChainError e.
Proof.
  intros Hfails. apply check_chain_fails in Hfails as (e & Hcheck & Hchain).
  exists e. unfold append_record. by rewrite Hcheck.
Qed.

(** *** The decision procedure *)

(** Case analysis on the scrutinee of the outermost [match] or [bind] of the
    goal. *)
Ltac step_decision :=
  match goal with
  | |- context [match ?x with _ => _ end] =>
      lazymatch x with
      | context [match _ with _ => _ end] => fail
      | _ => destruct x eqn:?
      end
  | |- context [bind ?m _] =>
      lazymatch m with
      | context [bind _ _] => fail
      | _ => destruct m eqn:?
      end
  end; simpl; try reflexivity.

(** C4. For every ledger state and every payment, the binary decision
    function [is_payment_authorized] and the reason-carrying variant
    [is_payment_authorized_with_reason] return the same authorize/reject
    outcome (and raise the same exception when one of them raises). *)
Theorem decision_variants_agree (ledger : FidesLedger) (payment : Payment) :
  is_payment_authorized ledger payment
  = (r <- is_payment_authorized_with_reason ledger payment ;; Ok (fst r)).
Proof.
  unfold is_payment_authorized, is_payment_authorized_with_reason.
  repeat step_decision.
Qed.

(** Once checks 1 to 6 have passed, the decision is the one of checks 7
    and 8. *)
Lemma decision_after_check_6
    (ledger : FidesLedger) (payment : Payment) (dr : record)
    (payment_dt : datetime) :
  passes_1_to_6 ledger payment dr payment_dt ->
  is_payment_authorized ledger payment
  = match Decimal_of_str (value payment),
          Decimal_of_str (py_str (dict_get_or dr "maximum_value" (VStr "0"))) with
    | Some payment_value, Some maximum_value =>
        nonpositive <- dec_le payment_value dec_zero ;;
        if nonpositive then Ok false else
        total_paid <- sum_payments ledger (decision_id payment) ;;
        new_total <- dec_add total_paid payment_value ;;
        exceeds <- dec_gt new_total maximum_value ;;
        if exceeds then Ok false else
        expired <- exception_expired dr payment_dt ;;
        if expired then Ok false else Ok true
    | _, _ => Ok false
    end.
Proof.
  intros [Hfound Hrevoked [errors Hvalid] Hpayment
            (decision_date & decision_dt & Hfield & Hdecision & Horder)
            Hbeneficiary Hcurrency].
  unfold is_payment_authorized.
  rewrite Hfound, Hrevoked, Hvalid. cbn [bind negb].
  rewrite (parse_date_is_iso8601 _ _ Hpayment).
  unfold dict_get_or at 1. unfold getitem. rewrite Hfield.
  cbn [default from_option id].
  rewrite (parse_date_is_iso8601 _ _ Hdecision).
  rewrite Hpayment, Hbeneficiary, Hcurrency. cbn [bind negb].
  rewrite Hdecision. cbn [bind]. rewrite Horder. cbn [bind].
  by rewrite !(proj2 (eq_str_true _ _) eq_refl).
Qed.

(** A payment dated without a zone, against a decision dated with one (or
    the converse), leaves the function by the [TypeError] of check 4. *)
Lemma mixed_zones_are_not_caught
    (ledger : FidesLedger) (payment : Payment) (dr : record) (errors : list string)
    (decision_date : pyval) (payment_dt decision_dt : datetime) :
  find_decision_record ledger (decision_id payment) = Some dr ->
  is_revoked ledger (decision_id payment) = false ->
  validate_dr dr = Ok (true, errors) ->
  parse_date (VStr (payment_date payment)) = Ok payment_dt ->
  dr !! "decision_date" = Some decision_date ->
  parse_date decision_date = Ok decision_dt ->
  (dt_utcoffset payment_dt = None <-> dt_utcoffset decision_dt <> None) ->
  is_payment_authorized ledger payment = Raise TypeError.
Proof.
  intros Hfound Hrevoked Hvalid Hpayment Hfield Hdecision Hzones.
  unfold is_payment_authorized.
  rewrite Hfound, Hrevoked, Hvalid. cbn [bind negb].
  rewrite (parse_date_is_iso8601 _ _ Hpayment).
  unfold dict_get_or at 1. unfold getitem. rewrite Hfield.
  cbn [default from_option id].
  rewrite (parse_date_is_iso8601 _ _ Hdecision).
  rewrite Hpayment. cbn [bind negb]. rewrite Hdecision. cbn [bind].
  unfold dt_lt, dt_cmp.
  destruct (dt_utcoffset payment_dt), (dt_utcoffset decision_dt);
    try reflexivity; exfalso; destruct Hzones as [Hnaive Haware].
  - by specialize (Haware ltac:(discriminate)).
  - by apply Hnaive.
Qed.

(** With checks 1 to 6 passed and no expiry in the way, the payment is
    authorized exactly when check 7 passes. *)
Lemma decision_is_check_7
    (ledger : FidesLedger) (payment : Payment) (dr : record)
    (payment_dt : datetime) :
  passes_1_to_6 ledger payment dr payment_dt ->
  exception_expired dr payment_dt = Ok false ->
  is_payment_authorized ledger payment = Ok true
  <-> within_limit ledger payment dr.
Proof.
  intros Hpasses Hexpiry.
  rewrite (decision_after_check_6 _ _ _ _ Hpasses), Hexpiry.
  unfold within_limit. split.
  - destruct (Decimal_of_str (value payment)) as [payment_value|]; [|discriminate].
    destruct (Decimal_of_str (py_str _)) as [maximum_value|]; [|discriminate].
    destruct (dec_le payment_value dec_zero) as [[]|] eqn:Hpositive;
      simpl; try discriminate.
    destruct (sum_payments ledger (decision_id payment)) as [total_paid|];
      simpl; [|discriminate].
    destruct (dec_add total_paid payment_value) as [new_total|] eqn:Hsum;
      simpl; [|discriminate].
    destruct (dec_gt new_total maximum_value) as [[]|] eqn:Hlimit;
      simpl; try discriminate.
    intros _. exists payment_value, maximum_value, total_paid, new_total.
    apply dec_le_false_gt in Hpositive. apply dec_gt_false_le in Hlimit.
    auto 10.
  - intros (payment_value & maximum_value & total_paid & new_total
            & -> & -> & Hpositive & -> & Hsum & Hlimit).
    apply dec_le_false_gt in Hpositive. apply dec_gt_false_le in Hlimit.
    rewrite Hpositive. simpl. rewrite Hsum. simpl. by rewrite Hlimit.
Qed.

(** Step 8 finds nothing to check on a record whose [maximum_term] is
    absent, empty or not a timestamp. *)
Lemma no_term_no_expiry (dr : record) (payment_dt : datetime) :
  dr !! "maximum_term" = None
  \/ dr !! "maximum_term" = Some (VStr "")
  \/ (exists term, dr !! "maximum_term" = Some term /\ is_iso8601 term = false) ->
  exception_expired dr payment_dt = Ok false.
Proof.
  unfold exception_expired, dict_get.
  destruct (eq_str _ "SDR"); [|done].
  intros [-> | [-> | (term & -> & Hterm)]]; simpl; [done | done |].
  rewrite Hterm. by rewrite andb_false_r.
Qed.

(** C10. For a record of type SDR whose [maximum_term] field is absent,
    empty, or not a valid timestamp, [is_payment_authorized] performs no
    term-limit check at all: a payment passing checks 1 to 7 is authorized
    regardless of its [payment_date]. *)
Theorem sdr_without_term_is_not_checked
    (ledger : FidesLedger) (payment : Payment) (dr : record)
    (payment_dt : datetime) :
  passes_1_to_6 ledger payment dr payment_dt ->
  within_limit ledger payment dr ->
  dict_get dr "record_type" = VStr "SDR" ->
  dr !! "maximum_term" = None
  \/ dr !! "maximum_term" = Some (VStr "")
  \/ (exists term, dr !! "maximum_term" = Some term /\ is_iso8601 term = false) ->
  is_payment_authorized ledger payment = Ok true.
Proof.
  intros Hpasses Hlimit _ Hterm.
  eapply decision_is_check_7; eauto using no_term_no_expiry.
Qed.

(** C2, as amended.  For every payment whose decision record exists, is
    unrevoked and valid, whose date, beneficiary and currency checks pass,
    which is not past the [maximum_term] of an SDR, and for which the
    addition of check 7 keeps every digit, the payment is authorized if and
    only if its value parses as a positive exact decimal and
    [sum_payments(decision_id) + value <= DR.maximum_value] under
    exact-decimal arithmetic; in particular a value exactly equal to the
    remaining headroom is authorized. *)
Theorem authorized_iff_within_limit
    (ledger : FidesLedger) (payment : Payment) (dr : record)
    (payment_dt : datetime) :
  passes_1_to_6 ledger payment dr payment_dt ->
  exception_expired dr payment_dt = Ok false ->
  addition_is_exact ledger payment ->
  (is_payment_authorized ledger payment = Ok true
   <-> within_limit_exact ledger payment dr)
  /\ (exactly_headroom ledger payment dr ->
      is_payment_authorized ledger payment = Ok true).
Proof.
  intros Hpasses Hexpiry Hexact.
  assert (within_limit ledger payment dr <-> within_limit_exact ledger payment dr)
    as Hsame.
  { unfold within_limit, within_limit_exact.
    split;
      intros (payment_value & maximum_value & total_paid & new_total
              & Hvalue & Hmax & Hpositive & Htotal & Hsum & Hlimit);
      exists payment_value, maximum_value, total_paid, new_total;
      repeat split; try done;
      [rewrite <- (Hexact _ _ Hvalue Htotal) | rewrite (Hexact _ _ Hvalue Htotal)];
      done. }
  split.
  - rewrite <- Hsame. by apply decision_is_check_7 with payment_dt.
  - intros (payment_value & maximum_value & total_paid & new_total
            & Hvalue & Hmax & Hpositive & Htotal & Hsum & Hequal).
    apply (decision_is_check_7 _ _ _ _ Hpasses Hexpiry), Hsame.
    exists payment_value, maximum_value, total_paid, new_total.
    auto 10 using dec_cmp_eq_le.
Qed.

(** *** Revocation *)

Lemma find_snoc {A : Type} (f : A -> bool) (l : list A) (x : A) :
  List.find f (l ++ [x])
  = match List.find f l with
    | Some y => Some y
    | None => if f x then Some x else None
    end.
Proof.
  induction l as [|y l IH]; simpl; [done|].
  by destruct (f y).
Qed.

Lemma authorized_found (ledger : FidesLedger) (payment : Payment) :
  is_payment_authorized ledger payment = Ok true ->
  exists dr,
    find_decision_record ledger (decision_id payment) = Some dr
    /\ is_revoked ledger (decision_id payment) = false.
Proof.
  unfold is_payment_authorized.
  destruct (find_decision_record ledger (decision_id payment)) as [dr|];
    [|discriminate].
  destruct (is_revoked ledger (decision_id payment)); [discriminate|].
  eauto.
Qed.

(** The columns of the row that [append_record] writes for a revocation
    record. *)
Lemma revocation_row (rr : record) (rec_hash target : string) (row : record_row) :
  rr !! "record_type" = Some (VStr "RR") ->
  rr !! "target_decision_id" = Some (VStr target) ->
  insert_record rr rec_hash = Ok row ->
  row_record_type row = "RR" /\ row_target_decision_id row = Some target.
Proof.
  intros Htype Htarget Hrow.
  apply insert_record_data in Hrow as (_ & Hcol_type & _ & Hcol_target).
  unfold dict_get_or, dict_get in *. rewrite Htype in Hcol_type.
  rewrite Htarget in Hcol_target. simpl in *. split; congruence.
Qed.

(** After a revocation record for [target] was appended, the decision is
    revoked and the decision records found are the same as before. *)
Lemma appended_revocation
    (rr : record) (target h : string) (l l' : FidesLedger) :
  rr !! "record_type" = Some (VStr "RR") ->
  rr !! "target_decision_id" = Some (VStr target) ->
  append_record rr l = (Ok h, l') ->
  is_revoked l' target = true
  /\ forall id, find_decision_record l' id = find_decision_record l id.
Proof.
  intros Htype Htarget Happend.
  apply append_record_ok in Happend as (_ & _ & row & Hrow & ->).
  destruct (revocation_row _ _ _ _ Htype Htarget Hrow) as [Hcol_type Hcol_target].
  split.
  - unfold is_revoked, find_revocation_record. simpl. rewrite find_snoc.
    destruct (List.find _ (records l)); [done|].
    unfold is_revocation_row. rewrite Hcol_type, Hcol_target.
    by rewrite !bool_decide_eq_true_2.
  - intros id. unfold find_decision_record. simpl. rewrite find_snoc.
    destruct (List.find _ (records l)); [done|].
    unfold is_decision_row. rewrite Hcol_type.
    by rewrite andb_false_r.
Qed.

(** C3. Authorization is monotonically stricter after revocation: for every
    ledger and payment [p], if [is_payment_authorized(ledger, p)] is true
    before a revocation record targeting [p.decision_id] is appended, then
    after that append [is_payment_authorized] returns false for the same
    payment. *)
Theorem revocation_blocks_payment
    (ledger ledger' : FidesLedger) (payment : Payment) (rr : record) (h : string) :
  is_payment_authorized ledger payment = Ok true ->
  rr !! "record_type" = Some (VStr "RR") ->
  rr !! "target_decision_id" = Some (VStr (decision_id payment)) ->
  append_record rr ledger = (Ok h, ledger') ->
  is_payment_authorized ledger' payment = Ok false.
Proof.
  intros Hauthorized Htype Htarget Happend.
  apply authorized_found in Hauthorized as (dr & Hfound & _).
  destruct (appended_revocation _ _ _ _ _ Htype Htarget Happend)
    as [Hrevoked Hsame].
  unfold is_payment_authorized.
  by rewrite Hsame, Hfound, Hrevoked.
Qed.

(** *** The factory *)

Lemma missing_fields_nil (required : list string) (r : record) :
  missing_fields required r = [] ->
  Forall (fun field => exists v, r !! field = Some v) required.
Proof.
  induction required as [|field required IH]; simpl; [by constructor|].
  destruct (r !! field) as [[| |]|] eqn:Hfield; try discriminate;
    intros Hrest; constructor; eauto.
Qed.

(** [validate_rr] compares no dates: it returns for every record. *)
Lemma validate_rr_returns (rr : record) :
  exists errors, validate_rr rr = Ok (no_errors errors, errors).
Proof.
  unfold validate_rr.
  destruct (missing_fields rr_required rr) as [|code codes] eqn:Hmissing;
    simpl; [|by exists (code :: codes)].
  apply missing_fields_nil in Hmissing. unfold rr_required in Hmissing.
  repeat match goal with
         | Hall : Forall _ (_ :: _) |- _ =>
             apply Forall_cons in Hall as [[? ?] Hall]
         end.
  unfold getitem.
  repeat match goal with
         | Hfield : rr !! _ = Some _ |- _ => rewrite Hfield; clear Hfield
         end.
  simpl.
  match goal with |- exists errors, Ok (_, ?codes) = _ => by exists codes end.
Qed.

Lemma rr_dict_lookup
    (revocation_id target_decision_id authority_id : string)
    (deciders_id : list string)
    (revocation_reason revocation_date previous_hash record_timestamp : string)
    (signatures : list string) :
  let rr :=
    rr_dict revocation_id target_decision_id authority_id deciders_id
      revocation_reason revocation_date previous_hash record_timestamp
      signatures in
  rr !! "record_type" = Some (VStr "RR")
  /\ rr !! "decision_id" = None
  /\ rr !! "revocation_id" = Some (VStr revocation_id)
  /\ rr !! "target_decision_id" = Some (VStr target_decision_id)
  /\ rr !! "authority_id" = Some (VStr authority_id)
  /\ rr !! "previous_record_hash" = Some (VStr previous_hash)
  /\ rr !! "record_timestamp" = Some (VStr record_timestamp)
  /\ rr !! "revocation_date" = Some (VStr revocation_date).
Proof. unfold rr_dict. repeat split; by simplify_map_eq. Qed.

(** A record that names the hash of the last record, and whose indexed
    columns are strings or absent, is appended. *)
Lemma append_linked_record
    (r last_record : record) (l : FidesLedger)
    (record_type authority_id record_timestamp : string)
    (decision_id revocation_id target_decision_id : option string) :
  _get_last_record l = Some last_record ->
  r !! "previous_record_hash" = Some (VStr (record_hash last_record)) ->
  r !! "record_type" = Some (VStr record_type) ->
  r !! "authority_id" = Some (VStr authority_id) ->
  r !! "record_timestamp" = Some (VStr record_timestamp) ->
  r !! "decision_id" = VStr <$> decision_id ->
  r !! "revocation_id" = VStr <$> revocation_id ->
  r !! "target_decision_id" = VStr <$> target_decision_id ->
  exists l',
    append_record r l = (Ok (record_hash r), l')
    /\ get_all_records l' = get_all_records l ++ [r]
    /\ payments l' = payments l.
Proof.
  intros Hlast Hprevious Htype Hauthority Htimestamp Hdecision Hrevocation
    Htarget.
  unfold append_record, check_chain.
  destruct (_get_record_count l =? 0) eqn:Hcount.
  { apply record_count_zero, last_record_none in Hcount. congruence. }
  rewrite Hlast. unfold verify_chain_link, dict_get. rewrite Hprevious.
  cbn [default from_option id].
  rewrite (proj2 (eq_str_true _ _) eq_refl). cbn [negb].
  unfold insert_record, dict_get_or, dict_get.
  rewrite Hprevious, Htype, Hauthority, Htimestamp, Hdecision, Hrevocation,
    Htarget.
  destruct decision_id, revocation_id, target_decision_id; simpl;
    eexists; (split; [reflexivity|]); unfold get_all_records; simpl;
    by rewrite fmap_app.
Qed.

Lemma found_decision_last (l : FidesLedger) (id : string) (dr : record) :
  find_decision_record l id = Some dr ->
  exists last_record, _get_last_record l = Some last_record.
Proof.
  intros Hfound.
  destruct (_get_last_record l) as [last_record|] eqn:Hlast; [eauto|].
  apply last_record_none in Hlast.
  unfold find_decision_record in Hfound. by rewrite Hlast in Hfound.
Qed.

(** C8. [create_revocation_record] fails with a LookupError when the target
    [decision_id] has no decision record in the ledger, or when the target
    decision already has a revocation record (no double revocation);
    otherwise it builds the RR with [revocation_date] defaulting to
    [record_timestamp] when absent, validates it, and appends it. *)
Theorem create_revocation_record_outcome
    (fresh_uuid now target_decision_id authority_id : string)
    (deciders_id : list string) (revocation_reason : string)
    (signatures : list string)
    (revocation_id revocation_date record_timestamp : option string)
    (ledger : FidesLedger) :
  let outcome :=
    create_revocation_record fresh_uuid now target_decision_id authority_id
      deciders_id revocation_reason signatures revocation_id revocation_date
      record_timestamp ledger in
  let timestamp := default now record_timestamp in
  let rr :=
    rr_dict (default fresh_uuid revocation_id) target_decision_id authority_id
      deciders_id revocation_reason (default timestamp revocation_date)
      (compute_previous_hash authority_id timestamp (_get_last_record ledger))
      timestamp signatures in
  (find_decision_record ledger target_decision_id = None
   \/ is_revoked ledger target_decision_id = true ->
   exists e, outcome = (Raise e, ledger) /\ LookupError target_decision_id e)
  /\ (find_decision_record ledger target_decision_id <> None ->
      is_revoked ledger target_decision_id = false ->
      exists errors,
        validate_rr rr = Ok (no_errors errors, errors)
        /\ if no_errors errors then
             exists ledger',
               outcome = (Ok rr, ledger')
               /\ get_all_records ledger' = get_all_records ledger ++ [rr]
               /\ payments ledger' = payments ledger
           else
             outcome
             = (Raise (ValueError ("Invalid Revocation Record: "
                                   +:+ show_errors errors)), ledger)).
Proof.
  simpl. unfold create_revocation_record, LookupError.
  rewrite get_all_records_last.
  split.
  - intros [-> | Hrevoked]; [eauto|].
    destruct (find_decision_record ledger target_decision_id); [|eauto].
    rewrite Hrevoked. eauto.
  - intros Hfound ->.
    destruct (find_decision_record ledger target_decision_id) as [dr|] eqn:Hdr;
      [|done].
    destruct (found_decision_last _ _ _ Hdr) as [last_record Hlast].
    rewrite Hlast. simpl compute_previous_hash.
    match goal with |- context [validate_rr ?r] => set (rr := r) end.
    destruct (validate_rr_returns rr) as [errors Hvalidate].
    exists errors. split; [done|]. rewrite Hvalidate.
    destruct (no_errors errors); simpl; [|done].
    destruct (rr_dict_lookup (default fresh_uuid revocation_id)
                target_decision_id authority_id deciders_id revocation_reason
                (default (default now record_timestamp) revocation_date)
                (record_hash last_record) (default now record_timestamp)
                signatures)
      as (Htype & Hdecision & Hrevocation & Htarget & Hauthority & Hprevious
          & Htimestamp & _).
    destruct (append_linked_record rr last_record ledger _ _ _
                None (Some _) (Some _) Hlast Hprevious Htype Hauthority
                Htimestamp Hdecision Hrevocation Htarget)
      as (ledger' & -> & Hrecords & Hpayments).
    eauto.
Qed.

(** The same when the revocation is made by the factory. *)
Lemma factory_revocation_blocks_payment
    (fresh_uuid now authority_id : string) (deciders_id : list string)
    (revocation_reason : string) (signatures : list string)
    (revocation_id revocation_date record_timestamp : option string)
    (ledger ledger' : FidesLedger) (payment : Payment) (rr : record) :
  is_payment_authorized ledger payment = Ok true ->
  create_revocation_record fresh_uuid now (decision_id payment) authority_id
    deciders_id revocation_reason signatures revocation_id revocation_date
    record_timestamp ledger = (Ok rr, ledger') ->
  is_payment_authorized ledger' payment = Ok false.
Proof.
  intros Hauthorized. unfold create_revocation_record.
  destruct (find_decision_record ledger (decision_id payment)) as [dr|] eqn:Hfound;
    [|discriminate].
  destruct (is_revoked ledger (decision_id payment)); [discriminate|].
  destruct (validate_rr _) as [[[] errors]|]; simpl; try discriminate.
  match goal with |- context [append_record ?r ledger] =>
    destruct (append_record r ledger) as [[h|e] l'] eqn:Happend
  end; [|discriminate].
  intros [= <- <-].
  match type of Happend with append_record (rr_dict ?a ?b ?c ?d ?e ?f ?g ?h' ?i) _ = _ =>
    destruct (rr_dict_lookup a b c d e f g h' i) as (Htype & _ & _ & Htarget & _)
  end.
  destruct (appended_revocation _ _ _ _ _ Htype Htarget Happend)
    as [Hrevoked Hsame].
  unfold is_payment_authorized.
  by rewrite Hsame, Hfound, Hrevoked.
Qed.

(** *** Validation *)

Lemma not_nonempty_list_spec (v : pyval) :
  not_nonempty_list v = negb (nonempty_list v).
Proof. by destruct v as [| |[|x l]]. Qed.

Lemma not_nonempty_str_spec (v : pyval) :
  not_nonempty_str v = negb (nonempty_str v).
Proof. by destruct v as [|[|a s]|]. Qed.

Lemma count_mismatch_spec (deciders_id signatures : pyval) :
  count_mismatch deciders_id signatures
  = negb (same_count deciders_id signatures).
Proof. by destruct deciders_id, signatures. Qed.

Lemma check_as_violated (holds : bool) (code : string) (errors : list string) :
  check (negb holds) code errors = errors ++ violated [(holds, code)].
Proof. destruct holds; simpl; by rewrite ?app_nil_r. Qed.

Lemma violated_cons (holds : bool) (code : string) (rest : list (bool * string)) :
  violated ((holds, code) :: rest) = violated [(holds, code)] ++ violated rest.
Proof. by destruct holds. Qed.

(** Rewriting with what is known of the fields, then comparing the codes
    appended one check at a time with those of the list of rules. *)
Ltac settle_rules r :=
  unfold getitem, dict_get;
  repeat match goal with
         | Hfield : r !! _ = Some _ |- _ => rewrite !Hfield; clear Hfield
         end;
  cbn [bind default from_option id];
  rewrite ?not_nonempty_list_spec, ?not_nonempty_str_spec, ?count_mismatch_spec;
  rewrite !check_as_violated;
  repeat (rewrite (violated_cons _ _ (_ :: _)));
  rewrite <- ?app_assoc; reflexivity.

(** A missing required field ends the validation with the codes of the
    missing fields alone. *)
Lemma validate_dr_missing (dr : record) :
  missing_fields dr_required dr <> [] ->
  validate_dr dr = Ok (false, missing_fields dr_required dr).
Proof.
  unfold validate_dr. by destruct (missing_fields dr_required dr).
Qed.

Lemma validate_rr_missing (rr : record) :
  missing_fields rr_required rr <> [] ->
  validate_rr rr = Ok (false, missing_fields rr_required rr).
Proof.
  unfold validate_rr. by destruct (missing_fields rr_required rr).
Qed.

(** With every required field present, [validate_rr] returns the codes of
    all the violated rules, in order. *)
Lemma validate_rr_collects (rr : record) :
  missing_fields rr_required rr = [] ->
  validate_rr rr = Ok (no_errors (violated (rr_rules rr)), violated (rr_rules rr)).
Proof.
  intros Hmissing. unfold validate_rr, rr_rules. rewrite Hmissing.
  apply missing_fields_nil in Hmissing. unfold rr_required in Hmissing.
  repeat match goal with
         | Hall : Forall _ (_ :: _) |- _ =>
             apply Forall_cons in Hall as [[? ?] Hall]
         end.
  cbn [no_errors negb]. settle_rules rr.
Qed.

(** So does [validate_dr], provided the comparison of its two timestamps
    returns. *)
Lemma validate_dr_collects (dr : record) (after : bool) :
  missing_fields dr_required dr = [] ->
  decision_after_timestamp (dict_get dr "decision_date")
    (dict_get dr "record_timestamp") = Ok after ->
  validate_dr dr
  = Ok (no_errors (violated (dr_rules dr after)), violated (dr_rules dr after)).
Proof.
  intros Hmissing. unfold validate_dr, dr_rules. rewrite Hmissing.
  apply missing_fields_nil in Hmissing. unfold dr_required in Hmissing.
  repeat match goal with
         | Hall : Forall _ (_ :: _) |- _ =>
             apply Forall_cons in Hall as [[? ?] Hall]
         end.
  cbn [no_errors negb]. unfold getitem, dict_get.
  repeat match goal with
         | Hfield : dr !! _ = Some _ |- _ => rewrite !Hfield; clear Hfield
         end.
  cbn [bind default from_option id]. intros ->. cbn [bind].
  replace (check after) with (check (negb (negb after)))
    by by rewrite negb_involutive.
  settle_rules dr.
Qed.

(** The comparison fails to return only on two timestamps of which one has
    a zone and the other has none, and then with [TypeError]. *)
Lemma decision_after_timestamp_raise
    (decision_date record_timestamp : pyval) (e : exn) :
  decision_after_timestamp decision_date record_timestamp = Raise e ->
  e = TypeError
  /\ exists d t,
       parse_date decision_date = Ok d
       /\ parse_date record_timestamp = Ok t
       /\ (dt_utcoffset d = None <-> dt_utcoffset t <> None).
Proof.
  unfold decision_after_timestamp.
  destruct (is_iso8601 decision_date) eqn:Hd; [|discriminate].
  destruct (is_iso8601 record_timestamp) eqn:Ht; [|discriminate].
  apply is_iso8601_parse_date in Hd as [d ->].
  apply is_iso8601_parse_date in Ht as [t ->].
  simpl. unfold dt_gt, dt_cmp.
  destruct (dt_utcoffset d) eqn:Hzd, (dt_utcoffset t) eqn:Hzt;
    simpl; try discriminate;
    intros [= <-]; (split; [done|]); exists d, t;
    rewrite Hzd, Hzt; repeat split; congruence.
Qed.

Lemma validate_dr_raise_is_comparison (dr : record) (e : exn) :
  validate_dr dr = Raise e ->
  decision_after_timestamp (dict_get dr "decision_date")
    (dict_get dr "record_timestamp") = Raise e.
Proof.
  destruct (decision_after_timestamp _ _) as [after|e'] eqn:Hafter.
  - destruct (missing_fields dr_required dr) as [|code codes] eqn:Hmissing.
    + by rewrite (validate_dr_collects dr after Hmissing Hafter).
    + by rewrite validate_dr_missing by congruence.
  - destruct (missing_fields dr_required dr) as [|code codes] eqn:Hmissing;
      [|by rewrite validate_dr_missing by congruence].
    unfold validate_dr. rewrite Hmissing.
    apply missing_fields_nil in Hmissing. unfold dr_required in Hmissing.
    repeat match goal with
           | Hall : Forall _ (_ :: _) |- _ =>
               apply Forall_cons in Hall as [[? ?] Hall]
           end.
    cbn [no_errors negb]. unfold getitem, dict_get in *.
    repeat match goal with
           | Hfield : dr !! _ = Some _ |- _ =>
               rewrite !Hfield in *; clear Hfield
           end.
    cbn [bind default from_option id] in *. rewrite Hafter. by intros [= ->].
Qed.

End Properties.

(** ** Further properties of the ledger *)

Section LedgerProperties.
Context `{PyLib}.

Lemma find_app_first {A : Type} (f : A -> bool) (l k : list A) :
  List.find f (l ++ k)
  = match List.find f l with
    | Some x => Some x
    | None => List.find f k
    end.
Proof.
  induction l as [|y l IH]; simpl; [by destruct (List.find f k)|].
  by destruct (f y).
Qed.

Lemma find_prefix {A : Type} (f : A -> bool) (l l' : list A) (x : A) :
  l `prefix_of` l' -> List.find f l = Some x -> List.find f l' = Some x.
Proof. intros [k ->] Hfound. by rewrite find_app_first, Hfound. Qed.

Lemma run_write_records (w : ledger_write) (l : FidesLedger) :
  records l `prefix_of` records (run_write w l).
Proof.
  destruct w as [r | payment_id decision_id beneficiary currency value payment_date];
    simpl.
  - destruct (append_record r l) as [[h|e] l'] eqn:Happend; simpl.
    + apply append_record_ok in Happend as (_ & _ & row & _ & ->).
      by apply prefix_app_r.
    + by apply append_record_raise in Happend as ->.
  - by rewrite record_payment_records.
Qed.

Lemma run_writes_records (ws : list ledger_write) (l : FidesLedger) :
  records l `prefix_of` records (run_writes ws l).
Proof.
  revert l. induction ws as [|w ws IH]; intros l; simpl; [done|].
  etrans; [apply run_write_records | apply IH].
Qed.

Lemma run_write_keeps_integrity (w : ledger_write) (l : FidesLedger) :
  verify_chain_integrity l = (true, None) ->
  verify_chain_integrity (run_write w l) = (true, None).
Proof.
  destruct w as [r | payment_id decision_id beneficiary currency value payment_date];
    simpl.
  - apply append_record_any_keeps_integrity.
  - unfold verify_chain_integrity, get_all_records.
    by rewrite record_payment_records.
Qed.


Lemma str_app_assoc (x y z : string) : (x +:+ y) +:+ z = x +:+ (y +:+ z).
Proof.
  induction x as [|a x IH]; [done|].
  change (String a ((x +:+ y) +:+ z) = String a (x +:+ y +:+ z)).
  by rewrite IH.
Qed.

(** X1. The seed of the genesis hash joins its two arguments with a hyphen:
    moving a hyphenated part from the end of [authority_id] to the start of
    the timestamp gives the same seed, hence the same genesis hash. *)
Theorem genesis_hash_seed_is_ambiguous (a b c : string) :
  genesis_hash (VStr (a +:+ "-" +:+ b)) (VStr c)
  = genesis_hash (VStr a) (VStr (b +:+ "-" +:+ c)).
Proof.
  unfold genesis_hash, py_str, py_str_with.
  by rewrite !str_app_assoc.
Qed.

(** X2. The link that [compute_previous_hash] computes is the one the
    verifiers accept: a record carrying it passes [verify_chain_link]
    against the previous record, and, when there is none, passes
    [verify_genesis] provided it carries the same [authority_id] and
    [record_timestamp]. *)
Theorem computed_link_verifies
    (authority_id record_timestamp : string) (previous_record : option record)
    (r : record) :
  r !! "previous_record_hash"
  = Some (VStr (compute_previous_hash authority_id record_timestamp previous_record)) ->
  r !! "authority_id" = Some (VStr authority_id) ->
  r !! "record_timestamp" = Some (VStr record_timestamp) ->
  match previous_record with
  | Some previous => verify_chain_link r previous = true
  | None => verify_genesis r = true
  end.
Proof.
  intros Hlink Hauthority Htimestamp.
  destruct previous_record as [previous|];
    unfold verify_chain_link, verify_genesis, dict_get, dict_get_or;
    rewrite Hlink, ?Hauthority, ?Htimestamp; by apply eq_str_true.
Qed.

(** X3. Insert, then look up: after [append_record] has stored a record whose
    [decision_id] is the string [id] and whose [record_type] is ['DR'],
    ['SDR'] or absent (the column then defaults to ['DR']),
    [find_decision_record] returns, for [id], the decision record that was
    found before if there was one, and the new record otherwise. *)
Theorem appended_decision_is_found
    (record : record) (id h : string) (l l' : FidesLedger) :
  append_record record l = (Ok h, l') ->
  record !! "decision_id" = Some (VStr id) ->
  record !! "record_type" = None
  \/ record !! "record_type" = Some (VStr "DR")
  \/ record !! "record_type" = Some (VStr "SDR") ->
  find_decision_record l' id
  = Some (default record (find_decision_record l id)).
Proof.
  intros Happend Hid Htype.
  apply append_record_ok in Happend as (_ & _ & row & Hrow & ->).
  apply insert_record_data in Hrow as (Hdata & Hcol_type & Hcol_id & _).
  unfold find_decision_record. simpl. rewrite find_snoc.
  destruct (List.find _ (records l)); [done|]. simpl.
  unfold dict_get_or, dict_get in *. rewrite Hid in Hcol_id.
  injection Hcol_id as Hcol_id.
  assert (row_record_type row = "DR" \/ row_record_type row = "SDR") as Hcolumn.
  { destruct Htype as [Hno | [Hdr | Hsdr]];
      [rewrite Hno in Hcol_type | rewrite Hdr in Hcol_type
      | rewrite Hsdr in Hcol_type];
      simpl in Hcol_type; injection Hcol_type as <-; auto. }
  unfold is_decision_row. rewrite <- Hcol_id.
  rewrite bool_decide_eq_true_2 by done.
  destruct Hcolumn as [-> | ->]; simpl; by rewrite Hdata.
Qed.

(** X4. First occurrence wins, for good: once [find_decision_record] returns
    a record for an identifier, it returns the same record after any
    sequence of writes, a later record with the same [decision_id]
    included. *)
Theorem found_decision_is_stable
    (l : FidesLedger) (id : string) (dr : record) (ws : list ledger_write) :
  find_decision_record l id = Some dr ->
  find_decision_record (run_writes ws l) id = Some dr.
Proof.
  unfold find_decision_record. intros Hfound.
  destruct (List.find (is_decision_row id) (records l)) as [row|] eqn:Hrow;
    [|discriminate].
  by rewrite (find_prefix _ _ _ _ (run_writes_records ws l) Hrow).
Qed.

(** X5. Revocation is permanent: once a decision is revoked, every payment
    against it is rejected, with [False] and no exception, after any
    sequence of writes to the ledger. *)
Theorem revoked_decision_never_pays
    (l : FidesLedger) (payment : Payment) (ws : list ledger_write) :
  is_revoked l (decision_id payment) = true ->
  is_payment_authorized (run_writes ws l) payment = Ok false.
Proof.
  unfold is_revoked, find_revocation_record. intros Hrevoked.
  destruct (List.find (is_revocation_row (decision_id payment)) (records l))
    as [row|] eqn:Hrow; [|discriminate].
  unfold is_payment_authorized, is_revoked, find_revocation_record.
  rewrite (find_prefix _ _ _ _ (run_writes_records ws l) Hrow). simpl.
  by destruct (find_decision_record _ _).
Qed.


Lemma insert_record_bound (record : record) (rec_hash : string) (row : record_row) :
  insert_record record rec_hash = Ok row ->
  (exists s, bind_text (dict_get_or record "record_type" (VStr "DR")) = Ok (Some s))
  /\ (exists s, bind_text (dict_get record "authority_id") = Ok (Some s))
  /\ (exists s, bind_text (dict_get record "previous_record_hash") = Ok (Some s))
  /\ (exists s, bind_text (dict_get record "record_timestamp") = Ok (Some s))
  /\ (exists c, bind_text (dict_get record "decision_id") = Ok c)
  /\ (exists c, bind_text (dict_get record "revocation_id") = Ok c)
  /\ (exists c, bind_text (dict_get record "target_decision_id") = Ok c).
Proof.
  unfold insert_record, not_null, of_option.
  repeat (match goal with
          | |- context [bind_text ?v] => destruct (bind_text v) as [[?|]|]
          end; simpl; try discriminate);
    intros _; repeat split; eauto.
Qed.

Lemma bind_text_ok (v : pyval) (c : option string) :
  bind_text v = Ok c -> is_list v = false.
Proof. by destruct v. Qed.

Lemma bind_text_some (v : pyval) (s : string) :
  bind_text v = Ok (Some s) -> v = VStr s.
Proof. destruct v; simpl; congruence. Qed.

(** X7. What the [INSERT] refuses is never stored, even when the link is
    right: a record that [append_record] accepts has a string as
    [previous_record_hash]; its [authority_id] and [record_timestamp] are
    neither left out, [None] nor a list; its [record_type] is not [None];
    and none of [record_type], [decision_id], [revocation_id] and
    [target_decision_id] is a list. *)
Theorem stored_record_has_bound_columns
    (record : record) (h : string) (l l' : FidesLedger) :
  append_record record l = (Ok h, l') ->
  (exists previous_record_hash,
     record !! "previous_record_hash" = Some (VStr previous_record_hash))
  /\ (forall field, field ∈ ["authority_id"; "record_timestamp"] ->
        dict_get record field <> VNone
        /\ is_list (dict_get record field) = false)
  /\ record !! "record_type" <> Some VNone
  /\ (forall field,
        field ∈ ["record_type"; "decision_id"; "revocation_id";
                 "target_decision_id"] ->
        is_list (dict_get record field) = false).
Proof.
  intros Happend.
  apply append_record_ok in Happend as (_ & _ & row & Hrow & _).
  apply insert_record_bound in Hrow
    as ([record_type Htype] & [authority_id Hauthority]
        & [previous Hprevious] & [record_timestamp Htimestamp]
        & [decision_id Hdecision] & [revocation_id Hrevocation]
        & [target_decision_id Htarget]).
  apply bind_text_some in Hauthority, Hprevious, Htimestamp, Htype.
  apply bind_text_ok in Hdecision, Hrevocation, Htarget.
  assert (record !! "record_type" <> Some VNone
          /\ is_list (dict_get record "record_type") = false) as [Hnone Hlist].
  { unfold dict_get_or, dict_get in *.
    by destruct (record !! "record_type") as [[| |]|]. }
  split; [|split; [|split; [done|]]].
  - exists previous. unfold dict_get in Hprevious.
    by destruct (record !! "previous_record_hash") as [v|]; simplify_eq/=.
  - intros field Hfield.
    repeat (apply elem_of_cons in Hfield as [-> | Hfield];
            [by rewrite ?Hauthority, ?Htimestamp|]).
    by apply elem_of_nil in Hfield.
  - intros field Hfield.
    repeat (apply elem_of_cons in Hfield as [-> | Hfield]; [done|]).
    by apply elem_of_nil in Hfield.
Qed.

(** X8. Writes keep a valid chain valid, whatever ledger one starts from:
    if [verify_chain_integrity] holds, it holds after any sequence of
    [append_record] and [record_payment] calls, failed ones included. *)
Theorem writes_keep_integrity (l : FidesLedger) (ws : list ledger_write) :
  verify_chain_integrity l = (true, None) ->
  verify_chain_integrity (run_writes ws l) = (true, None).
Proof.
  revert l. induction ws as [|w ws IH]; intros l Hvalid; simpl; [done|].
  by apply IH, run_write_keeps_integrity.
Qed.

Lemma verify_links_failure
    (i : nat) (previous : record) (rest : list record) (k : nat) :
  verify_links i previous rest = (false, Some k) ->
  exists j r p,
    k = (i + j)%nat
    /\ rest !! j = Some r
    /\ (previous :: rest) !! j = Some p
    /\ verify_chain_link r p = false
    /\ verify_links i previous (take j rest) = (true, None).
Proof.
  revert i previous k.
  induction rest as [|current rest IH]; intros i previous k; simpl;
    [discriminate|].
  destruct (verify_chain_link current previous) eqn:Hlink; simpl.
  - intros Hrest. apply IH in Hrest as (j & r & p & -> & Hr & Hp & Hbad & Hgood).
    exists (S j), r, p. simpl. rewrite Hlink. simpl.
    repeat split; (done || lia).
  - intros [= <-]. exists 0%nat, current, previous. simpl.
    repeat split; (done || lia).
Qed.

(** X9. When [verify_chain_integrity] reports an invalid chain, the index it
    returns is the first record that does not verify: that record fails the
    genesis check (index 0) or the link to the record before it, and the
    records before that index form a valid chain. *)
Theorem first_invalid_index (l : FidesLedger) (i : nat) :
  verify_chain_integrity l = (false, Some i) ->
  exists r,
    get_all_records l !! i = Some r
    /\ match i with
       | O => verify_genesis r = false
       | S j =>
           exists p,
             get_all_records l !! j = Some p /\ verify_chain_link r p = false
       end
    /\ verify_chain_integrity (mk_ledger (take i (records l)) (payments l))
       = (true, None).
Proof.
  unfold verify_chain_integrity at 1.
  assert (forall n, get_all_records (mk_ledger (take n (records l)) (payments l))
                    = take n (get_all_records l)) as Htake
    by (intros n; unfold get_all_records; simpl; apply fmap_take).
  destruct (get_all_records l) as [|first rest] eqn:Hrecords; [discriminate|].
  destruct (verify_genesis first) eqn:Hgenesis; simpl.
  - intros Hlinks.
    apply verify_links_failure in Hlinks as (j & r & p & -> & Hr & Hp & Hbad & Hgood).
    exists r. simpl. repeat split; [done | eauto |].
    unfold verify_chain_integrity. rewrite Htake. simpl. by rewrite Hgenesis.
  - intros [= <-]. exists first.
    repeat split; try done; unfold verify_chain_integrity; by rewrite Htake.
Qed.

End LedgerProperties.

(** ** Further properties of the factory and of the payment log *)

Section FactoryProperties.
Context `{PyLib}.

Lemma dr_dict_lookup
    (decision_id authority_id : string) (deciders_id : list string)
    (act_type currency maximum_value beneficiary legal_basis decision_date
       previous_hash record_timestamp : string)
    (signatures : list string) :
  let dr :=
    dr_dict decision_id authority_id deciders_id act_type currency
      maximum_value beneficiary legal_basis decision_date previous_hash
      record_timestamp signatures in
  dr !! "record_type" = Some (VStr "DR")
  /\ dr !! "decision_id" = Some (VStr decision_id)
  /\ dr !! "revocation_id" = None
  /\ dr !! "target_decision_id" = None
  /\ dr !! "authority_id" = Some (VStr authority_id)
  /\ dr !! "previous_record_hash" = Some (VStr previous_hash)
  /\ dr !! "record_timestamp" = Some (VStr record_timestamp).
Proof. unfold dr_dict. repeat split; by simplify_map_eq. Qed.

(** A record that carries the link computed from the last record of the
    ledger, and whose indexed columns are strings or absent, is appended. *)
Lemma append_computed_link
    (r : record) (l : FidesLedger)
    (record_type authority_id record_timestamp : string)
    (decision_id revocation_id target_decision_id : option string) :
  r !! "previous_record_hash"
  = Some (VStr (compute_previous_hash authority_id record_timestamp
                  (_get_last_record l))) ->
  r !! "record_type" = Some (VStr record_type) ->
  r !! "authority_id" = Some (VStr authority_id) ->
  r !! "record_timestamp" = Some (VStr record_timestamp) ->
  r !! "decision_id" = VStr <$> decision_id ->
  r !! "revocation_id" = VStr <$> revocation_id ->
  r !! "target_decision_id" = VStr <$> target_decision_id ->
  exists row,
    append_record r l
    = (Ok (record_hash r), mk_ledger (records l ++ [row]) (payments l))
    /\ row_record_data row = r
    /\ row_record_type row = record_type
    /\ row_decision_id row = decision_id
    /\ row_target_decision_id row = target_decision_id.
Proof.
  intros Hprevious Htype Hauthority Htimestamp Hdecision Hrevocation Htarget.
  assert (check_chain r l = Ok tt) as Hcheck.
  { unfold check_chain.
    destruct (_get_last_record l) as [last_record|] eqn:Hlast.
    - destruct (_get_record_count l =? 0) eqn:Hcount.
      { apply record_count_zero, last_record_none in Hcount. congruence. }
      unfold verify_chain_link, dict_get. rewrite Hprevious. simpl.
      by rewrite bool_decide_eq_true_2.
    - apply last_record_none, record_count_zero in Hlast as ->.
      unfold verify_genesis, dict_get, dict_get_or.
      rewrite Hprevious, Hauthority, Htimestamp. simpl.
      by rewrite bool_decide_eq_true_2. }
  unfold append_record. rewrite Hcheck.
  unfold insert_record, dict_get_or, dict_get.
  rewrite Hprevious, Htype, Hauthority, Htimestamp, Hdecision, Hrevocation,
    Htarget.
  destruct decision_id, revocation_id, target_decision_id; simpl;
    eexists; repeat split; reflexivity.
Qed.

(** X10. [create_decision_record] has three outcomes.  When [validate_dr]
    raises, so does the factory; when it reports errors, the factory raises
    the [ValueError] that lists them; in both cases the ledger is left as it
    was.  When the record is valid it is always appended, as the first
    record of an empty ledger or linked to the last one: the append raises
    no chain error. *)
Theorem create_decision_record_outcome
    (fresh_uuid now authority_id : string) (deciders_id : list string)
    (act_type currency_code maximum_value beneficiary_id legal_basis
       decision_date : string)
    (signatures : list string) (given_id record_timestamp : option string)
    (ledger : FidesLedger) :
  let outcome :=
    create_decision_record fresh_uuid now authority_id deciders_id act_type
      currency_code maximum_value beneficiary_id legal_basis decision_date
      signatures given_id record_timestamp ledger in
  let timestamp := default now record_timestamp in
  let dr :=
    dr_dict (default fresh_uuid given_id) authority_id deciders_id act_type
      currency_code maximum_value beneficiary_id legal_basis decision_date
      (compute_previous_hash authority_id timestamp (_get_last_record ledger))
      timestamp signatures in
  match validate_dr dr with
  | Raise e => outcome = (Raise e, ledger)
  | Ok (false, errors) =>
      outcome
      = (Raise (ValueError ("Invalid Decision Record: " +:+ show_errors errors)),
         ledger)
  | Ok (true, _) =>
      exists ledger',
        outcome = (Ok dr, ledger')
        /\ get_all_records ledger' = get_all_records ledger ++ [dr]
        /\ payments ledger' = payments ledger
  end.
Proof.
  simpl. unfold create_decision_record. rewrite get_all_records_last.
  destruct (validate_dr _) as [[[] errors]|]; simpl; try done.
  match goal with |- context [append_record ?r ledger] => set (dr := r) end.
  destruct (dr_dict_lookup (default fresh_uuid given_id) authority_id
              deciders_id act_type currency_code maximum_value beneficiary_id
              legal_basis decision_date
              (compute_previous_hash authority_id (default now record_timestamp)
                 (_get_last_record ledger))
              (default now record_timestamp) signatures)
    as (Htype & Hdecision & Hrevocation & Htarget & Hauthority & Hprevious
        & Htimestamp).
  destruct (append_computed_link dr ledger _ _ _ (Some _) None None
              Hprevious Htype Hauthority Htimestamp Hdecision Hrevocation
              Htarget) as (row & -> & Hdata & _).
  eexists. split; [done|]. split; [|done].
  unfold get_all_records. simpl. by rewrite fmap_app, <- Hdata.
Qed.

(** X11. Create, then look up: after [create_decision_record] has returned a
    record, [find_decision_record] returns, for its [decision_id], that
    record, unless an earlier record already carried the identifier, which
    is then still the one returned. *)
Theorem created_decision_is_found
    (fresh_uuid now authority_id : string) (deciders_id : list string)
    (act_type currency_code maximum_value beneficiary_id legal_basis
       decision_date : string)
    (signatures : list string) (given_id record_timestamp : option string)
    (ledger ledger' : FidesLedger) (dr : record) :
  create_decision_record fresh_uuid now authority_id deciders_id act_type
    currency_code maximum_value beneficiary_id legal_basis decision_date
    signatures given_id record_timestamp ledger = (Ok dr, ledger') ->
  let id := default fresh_uuid given_id in
  dict_get dr "decision_id" = VStr id
  /\ find_decision_record ledger' id
     = Some (default dr (find_decision_record ledger id)).
Proof.
  unfold create_decision_record. rewrite get_all_records_last.
  destruct (validate_dr _) as [[[] errors]|]; simpl; try discriminate.
  match goal with |- context [append_record ?r ledger] => set (new := r) end.
  destruct (dr_dict_lookup (default fresh_uuid given_id) authority_id
              deciders_id act_type currency_code maximum_value beneficiary_id
              legal_basis decision_date
              (compute_previous_hash authority_id (default now record_timestamp)
                 (_get_last_record ledger))
              (default now record_timestamp) signatures)
    as (Htype & Hdecision & Hrevocation & Htarget & Hauthority & Hprevious
        & Htimestamp).
  destruct (append_computed_link new ledger _ _ _ (Some _) None None
              Hprevious Htype Hauthority Htimestamp Hdecision Hrevocation
              Htarget) as (row & -> & Hdata & Hcol_type & Hcol_id & _).
  intros [= <- <-]. split.
  - unfold dict_get. subst new. by rewrite Hdecision.
  - unfold find_decision_record. simpl. rewrite find_snoc.
    destruct (List.find _ (records ledger)); [done|]. simpl.
    unfold is_decision_row. rewrite Hcol_type, Hcol_id.
    rewrite !bool_decide_eq_true_2 by done. simpl. by rewrite Hdata.
Qed.

(** X12. No double revocation through the factory: once
    [create_revocation_record] has succeeded for a target, every further
    call for the same target raises "Decision already revoked" and leaves
    the ledger as it was, whatever the other arguments. *)
Theorem second_revocation_is_refused
    (fresh_uuid now target authority_id : string) (deciders_id : list string)
    (revocation_reason : string) (signatures : list string)
    (revocation_id revocation_date record_timestamp : option string)
    (fresh_uuid' now' authority_id' : string) (deciders_id' : list string)
    (revocation_reason' : string) (signatures' : list string)
    (revocation_id' revocation_date' record_timestamp' : option string)
    (ledger ledger' : FidesLedger) (rr : record) :
  create_revocation_record fresh_uuid now target authority_id deciders_id
    revocation_reason signatures revocation_id revocation_date
    record_timestamp ledger = (Ok rr, ledger') ->
  create_revocation_record fresh_uuid' now' target authority_id' deciders_id'
    revocation_reason' signatures' revocation_id' revocation_date'
    record_timestamp' ledger'
  = (Raise (ValueError ("Decision already revoked: " +:+ target)), ledger').
Proof.
  unfold create_revocation_record at 1.
  destruct (find_decision_record ledger target) as [dr|] eqn:Hfound;
    [|discriminate].
  destruct (is_revoked ledger target); [discriminate|].
  destruct (validate_rr _) as [[[] errors]|]; simpl; try discriminate.
  match goal with |- context [append_record ?r ledger] =>
    destruct (append_record r ledger) as [[h|e] l'] eqn:Happend
  end; [|discriminate].
  intros [= <- <-].
  match type of Happend with append_record (rr_dict ?a ?b ?c ?d ?e ?f ?g ?h' ?i) _ = _ =>
    destruct (rr_dict_lookup a b c d e f g h' i) as (Htype & _ & _ & Htarget & _)
  end.
  destruct (appended_revocation _ _ _ _ _ Htype Htarget Happend)
    as [Hrevoked Hsame].
  unfold create_revocation_record. by rewrite Hsame, Hfound, Hrevoked.
Qed.

(** *** The payment log *)

Lemma sum_values_snoc (total : Decimal) (values : list string) (value : string) :
  sum_values total (values ++ [value])
  = (subtotal <- sum_values total values ;;
     d <- of_option (Decimal_of_str value) InvalidOperation ;;
     dec_add subtotal d).
Proof.
  revert total. induction values as [|v values IH]; intros total; simpl.
  - destruct (of_option _ _) as [d|]; simpl; [|done].
    by destruct (dec_add total d).
  - destruct (of_option (Decimal_of_str v) _) as [d|]; simpl; [|done].
    destruct (dec_add total d) as [subtotal|]; simpl; [|done].
    apply IH.
Qed.

Lemma logged_sum_grows
    (payment_id id beneficiary_id currency_code amount date : string)
    (l l' : FidesLedger) :
  record_payment payment_id id beneficiary_id currency_code amount date l
  = (Ok tt, l') ->
  sum_payments l' id
  = (total <- sum_payments l id ;;
     d <- of_option (Decimal_of_str amount) InvalidOperation ;;
     dec_add total d)
  /\ records l' = records l.
Proof.
  unfold record_payment. case_bool_decide; [discriminate|].
  intros [= <-]. unfold sum_payments. simpl. split; [|done].
  rewrite List.filter_app. simpl.
  rewrite ?bool_decide_eq_true_2 by done.
  rewrite fmap_app. apply sum_values_snoc.
Qed.

(** X13. Record, then sum: after [record_payment] has logged a payment,
    [sum_payments] for its decision is the former sum plus the new value
    (raising where the value is not a number or the addition signals), and
    the sum for every other decision is unchanged. *)
Theorem sum_after_record_payment
    (payment_id id beneficiary_id currency_code amount date : string)
    (l l' : FidesLedger) :
  record_payment payment_id id beneficiary_id currency_code amount date l
  = (Ok tt, l') ->
  sum_payments l' id
  = (total <- sum_payments l id ;;
     d <- of_option (Decimal_of_str amount) InvalidOperation ;;
     dec_add total d)
  /\ forall other, other <> id -> sum_payments l' other = sum_payments l other.
Proof.
  unfold record_payment. case_bool_decide; [discriminate|].
  intros [= <-]. unfold sum_payments. simpl.
  rewrite !List.filter_app. simpl. split.
  - rewrite ?bool_decide_eq_true_2 by done.
    rewrite fmap_app. apply sum_values_snoc.
  - intros other Hother. rewrite List.filter_app. simpl.
    rewrite bool_decide_eq_false_2 by congruence.
    by rewrite app_nil_r.
Qed.

(** X14. A payment identifier is logged once: after [record_payment] has
    succeeded for an identifier, every further call with that identifier is
    refused and leaves the ledger, and so every sum, as it was. *)
Theorem payment_id_is_logged_once
    (payment_id id beneficiary_id currency_code amount date : string)
    (id' beneficiary_id' currency_code' amount' date' : string)
    (l l' : FidesLedger) :
  record_payment payment_id id beneficiary_id currency_code amount date l
  = (Ok tt, l') ->
  record_payment payment_id id' beneficiary_id' currency_code' amount' date' l'
  = (Raise sqlite3_Error, l').
Proof.
  unfold record_payment at 1. case_bool_decide; [discriminate|].
  intros [= <-]. unfold record_payment. simpl.
  rewrite bool_decide_eq_true_2; [done|].
  rewrite fmap_app. apply elem_of_app. right. simpl. by left.
Qed.

End FactoryProperties.


(** ** Further properties of the decision procedure *)

Section DecisionProperties.
Context `{PyLib}.

(** What an authorization rests on. *)
Lemma authorized_inv (ledger : FidesLedger) (payment : Payment) :
  is_payment_authorized ledger payment = Ok true ->
  exists dr payment_dt,
    passes_1_to_6 ledger payment dr payment_dt
    /\ within_limit ledger payment dr
    /\ exception_expired dr payment_dt = Ok false.
Proof.
  unfold is_payment_authorized.
  destruct (find_decision_record ledger (decision_id payment)) as [dr|] eqn:Hfound;
    [|discriminate].
  destruct (is_revoked ledger (decision_id payment)) eqn:Hrevoked; [discriminate|].
  destruct (validate_dr dr) as [[[] errors]|] eqn:Hvalid; cbn [bind negb];
    try discriminate.
  destruct (is_iso8601 (VStr (payment_date payment))); cbn [negb]; [|discriminate].
  destruct (is_iso8601 (dict_get_or dr "decision_date" (VStr ""))); cbn [negb];
    [|discriminate].
  destruct (parse_date (VStr (payment_date payment))) as [payment_dt|] eqn:Hpayment;
    cbn [bind]; [|discriminate].
  unfold getitem.
  destruct (dr !! "decision_date") as [decision_date|] eqn:Hfield; cbn [bind];
    [|discriminate].
  destruct (parse_date decision_date) as [decision_dt|] eqn:Hdecision; cbn [bind];
    [|discriminate].
  destruct (dt_lt payment_dt decision_dt) as [[]|] eqn:Horder; cbn [bind];
    try discriminate.
  destruct (eq_str (dict_get dr "beneficiary") (beneficiary payment)) eqn:Hbeneficiary;
    cbn [negb]; [|discriminate].
  destruct (eq_str (dict_get dr "currency") (currency payment)) eqn:Hcurrency;
    cbn [negb]; [|discriminate].
  destruct (Decimal_of_str (value payment)) as [payment_value|] eqn:Hvalue;
    [|discriminate].
  destruct (Decimal_of_str (py_str _)) as [maximum_value|] eqn:Hmaximum;
    [|discriminate].
  destruct (dec_le payment_value dec_zero) as [[]|] eqn:Hpositive; cbn [bind];
    try discriminate.
  destruct (sum_payments ledger (decision_id payment)) as [total_paid|] eqn:Htotal;
    cbn [bind]; [|discriminate].
  destruct (dec_add total_paid payment_value) as [new_total|] eqn:Hsum; cbn [bind];
    [|discriminate].
  destruct (dec_gt new_total maximum_value) as [[]|] eqn:Hlimit; cbn [bind];
    try discriminate.
  destruct (exception_expired dr payment_dt) as [[]|] eqn:Hexpiry; cbn [bind];
    try discriminate.
  intros _. exists dr, payment_dt.
  apply eq_str_true in Hbeneficiary, Hcurrency.
  apply dec_le_false_gt in Hpositive. apply dec_gt_false_le in Hlimit.
  split; [split; eauto|]. split; [|done].
  exists payment_value, maximum_value, total_paid, new_total. auto 10.
Qed.

(** X15. No record, no payment: [is_payment_authorized] returns [True]
    exactly when a decision record is found for the payment, it is not
    revoked, it passes [validate_dr], the payment is dated at or after the
    decision, beneficiary and currency are those of the record, the value is
    positive and within what is left of the limit, and no term of an SDR has
    run out. *)
Theorem authorized_iff_all_checks (ledger : FidesLedger) (payment : Payment) :
  is_payment_authorized ledger payment = Ok true
  <-> exists dr payment_dt,
        passes_1_to_6 ledger payment dr payment_dt
        /\ within_limit ledger payment dr
        /\ exception_expired dr payment_dt = Ok false.
Proof.
  split; [apply authorized_inv|].
  intros (dr & payment_dt & Hpasses & Hlimit & Hexpiry).
  by apply (decision_is_check_7 ledger payment dr payment_dt).
Qed.

(** X16. The limit holds after the payment is logged: when a payment is
    authorized and then recorded with [record_payment], the sum of the
    payments logged for its decision is at most the [maximum_value] of the
    decision record. *)
Theorem recorded_total_within_limit
    (ledger ledger' : FidesLedger) (payment : Payment) (payment_id : string) :
  is_payment_authorized ledger payment = Ok true ->
  record_payment payment_id (decision_id payment) (beneficiary payment)
    (currency payment) (value payment) (payment_date payment) ledger
  = (Ok tt, ledger') ->
  exists dr maximum_value total,
    find_decision_record ledger' (decision_id payment) = Some dr
    /\ Decimal_of_str (py_str (dict_get_or dr "maximum_value" (VStr "0")))
       = Some maximum_value
    /\ sum_payments ledger' (decision_id payment) = Ok total
    /\ dec_le total maximum_value = Ok true.
Proof.
  intros Hauthorized Hrecorded.
  apply authorized_inv in Hauthorized
    as (dr & payment_dt & [Hfound _ _ _ _ _ _]
        & (payment_value & maximum_value & total_paid & new_total
           & Hvalue & Hmaximum & _ & Htotal & Hsum & Hlimit) & _).
  exists dr, maximum_value, new_total. repeat split; try done.
  - unfold find_decision_record in *.
    pose proof (record_payment_records payment_id (decision_id payment)
                  (beneficiary payment) (currency payment) (value payment)
                  (payment_date payment) ledger) as Hrecords.
    rewrite Hrecorded in Hrecords. simpl in Hrecords. by rewrite Hrecords.
  - apply logged_sum_grows in Hrecorded as [-> _].
    rewrite Htotal, Hvalue. simpl. done.
Qed.

(** One case for each way through the procedure. *)
Ltac split_reason :=
  repeat (match goal with
          | |- context [match ?x with _ => _ end] =>
              lazymatch x with
              | context [match _ with _ => _ end] => fail
              | _ => destruct x eqn:?
              end
          | |- context [bind ?m _] =>
              lazymatch m with
              | context [bind _ _] => fail
              | _ => destruct m eqn:?
              end
          end; cbn [bind negb fst snd]).

(** X17. The reason tells the outcome: whenever
    [is_payment_authorized_with_reason] returns, its flag is [True] exactly
    when its reason is ["AUTHORIZED"]. *)
Theorem reason_is_authorized_iff_flag
    (ledger : FidesLedger) (payment : Payment) (flag : bool) (reason : string) :
  is_payment_authorized_with_reason ledger payment = Ok (flag, reason) ->
  flag = true <-> reason = "AUTHORIZED".
Proof.
  unfold is_payment_authorized_with_reason.
  split_reason; intros [= <- <-]; split; (discriminate || done).
Qed.

(** X18. The first two checks come first: the reason is
    ["RECORD_NOT_FOUND"] exactly when no decision record is found, and
    ["DECISION_REVOKED"] exactly when one is found and is revoked, be the
    record valid or not. *)
Theorem first_reasons (ledger : FidesLedger) (payment : Payment) :
  (is_payment_authorized_with_reason ledger payment
   = Ok (false, "RECORD_NOT_FOUND")
   <-> find_decision_record ledger (decision_id payment) = None)
  /\ (is_payment_authorized_with_reason ledger payment
      = Ok (false, "DECISION_REVOKED")
      <-> find_decision_record ledger (decision_id payment) <> None
          /\ is_revoked ledger (decision_id payment) = true).
Proof.
  unfold is_payment_authorized_with_reason.
  destruct (find_decision_record ledger (decision_id payment)) as [dr|];
    [|split; split; (done || intros [? ?]; done || discriminate)].
  destruct (is_revoked ledger (decision_id payment));
    [split; split; (done || discriminate)|].
  split; split; try (intros [_ ?]; discriminate); try discriminate;
    split_reason; discriminate.
Qed.

(** X19. A payment dated strictly before the decision is rejected, with the
    reason ["PAYMENT_BEFORE_DECISION"], whatever its beneficiary, currency
    and value. *)
Theorem payment_before_decision_is_rejected
    (ledger : FidesLedger) (payment : Payment) (dr : record)
    (errors : list string) (decision_date : pyval)
    (payment_dt decision_dt : datetime) :
  find_decision_record ledger (decision_id payment) = Some dr ->
  is_revoked ledger (decision_id payment) = false ->
  validate_dr dr = Ok (true, errors) ->
  parse_date (VStr (payment_date payment)) = Ok payment_dt ->
  dr !! "decision_date" = Some decision_date ->
  parse_date decision_date = Ok decision_dt ->
  dt_lt payment_dt decision_dt = Ok true ->
  is_payment_authorized ledger payment = Ok false
  /\ is_payment_authorized_with_reason ledger payment
     = Ok (false, "PAYMENT_BEFORE_DECISION").
Proof.
  intros Hfound Hrevoked Hvalid Hpayment Hfield Hdecision Horder.
  unfold is_payment_authorized, is_payment_authorized_with_reason.
  rewrite Hfound, Hrevoked, Hvalid. cbn [bind negb].
  assert (dict_get_or dr "decision_date" (VStr "") = decision_date) as Hget
    by (unfold dict_get_or; by rewrite Hfield).
  rewrite !(parse_date_is_iso8601 _ _ Hpayment), !Hget.
  unfold getitem. rewrite Hfield.
  rewrite !(parse_date_is_iso8601 _ _ Hdecision).
  rewrite Hpayment. cbn [bind negb]. rewrite Hdecision. cbn [bind].
  by rewrite Horder.
Qed.

(** X20. With checks 1 to 4 passed, a beneficiary other than the one of the
    record is rejected with ["BENEFICIARY_MISMATCH"] and, the beneficiary
    being right, a currency other than the one of the record with
    ["CURRENCY_MISMATCH"], whatever the value. *)
Theorem wrong_party_is_rejected
    (ledger : FidesLedger) (payment : Payment) (dr : record)
    (errors : list string) (decision_date : pyval)
    (payment_dt decision_dt : datetime) :
  find_decision_record ledger (decision_id payment) = Some dr ->
  is_revoked ledger (decision_id payment) = false ->
  validate_dr dr = Ok (true, errors) ->
  parse_date (VStr (payment_date payment)) = Ok payment_dt ->
  dr !! "decision_date" = Some decision_date ->
  parse_date decision_date = Ok decision_dt ->
  dt_lt payment_dt decision_dt = Ok false ->
  (dict_get dr "beneficiary" <> VStr (beneficiary payment) ->
   is_payment_authorized_with_reason ledger payment
   = Ok (false, "BENEFICIARY_MISMATCH"))
  /\ (dict_get dr "beneficiary" = VStr (beneficiary payment) ->
      dict_get dr "currency" <> VStr (currency payment) ->
      is_payment_authorized_with_reason ledger payment
      = Ok (false, "CURRENCY_MISMATCH")).
Proof.
  intros Hfound Hrevoked Hvalid Hpayment Hfield Hdecision Horder.
  unfold is_payment_authorized_with_reason.
  rewrite Hfound, Hrevoked, Hvalid. cbn [bind negb].
  assert (dict_get_or dr "decision_date" (VStr "") = decision_date) as Hget
    by (unfold dict_get_or; by rewrite Hfield).
  rewrite (parse_date_is_iso8601 _ _ Hpayment), Hget.
  unfold getitem. rewrite Hfield.
  rewrite (parse_date_is_iso8601 _ _ Hdecision).
  rewrite Hpayment. cbn [bind negb]. rewrite Hdecision. cbn [bind].
  rewrite Horder. cbn [bind].
  split.
  - intros Hbeneficiary. by apply eq_str_false in Hbeneficiary as ->.
  - intros Hbeneficiary Hcurrency.
    apply eq_str_true in Hbeneficiary as ->.
    by apply eq_str_false in Hcurrency as ->.
Qed.

(** X21. The reason-carrying variant has no reason for dates of mixed
    zones: a payment dated without a zone against a decision dated with one
    (or the converse) passes both [is_iso8601] checks, and the comparison of
    check 4 leaves [is_payment_authorized_with_reason] by [TypeError]. *)
Theorem mixed_zones_have_no_reason
    (ledger : FidesLedger) (payment : Payment) (dr : record)
    (errors : list string) (decision_date : pyval)
    (payment_dt decision_dt : datetime) :
  find_decision_record ledger (decision_id payment) = Some dr ->
  is_revoked ledger (decision_id payment) = false ->
  validate_dr dr = Ok (true, errors) ->
  parse_date (VStr (payment_date payment)) = Ok payment_dt ->
  dr !! "decision_date" = Some decision_date ->
  parse_date decision_date = Ok decision_dt ->
  (dt_utcoffset payment_dt = None <-> dt_utcoffset decision_dt <> None) ->
  is_payment_authorized_with_reason ledger payment = Raise TypeError.
Proof.
  intros Hfound Hrevoked Hvalid Hpayment Hfield Hdecision Hzones.
  unfold is_payment_authorized_with_reason.
  rewrite Hfound, Hrevoked, Hvalid. cbn [bind negb].
  assert (dict_get_or dr "decision_date" (VStr "") = decision_date) as Hget
    by (unfold dict_get_or; by rewrite Hfield).
  rewrite (parse_date_is_iso8601 _ _ Hpayment), Hget.
  unfold getitem. rewrite Hfield.
  rewrite (parse_date_is_iso8601 _ _ Hdecision).
  rewrite Hpayment. cbn [bind negb]. rewrite Hdecision. cbn [bind].
  unfold dt_lt, dt_cmp.
  destruct (dt_utcoffset payment_dt), (dt_utcoffset decision_dt);
    try reflexivity; exfalso; destruct Hzones as [Hnaive Haware].
  - by specialize (Haware ltac:(discriminate)).
  - by apply Hnaive.
Qed.

(** X22. A payment value of NaN is not caught: the constructor accepts it,
    the [try] is left, and [payment_value <= 0] signals
    [InvalidOperation], which leaves the function. *)
Theorem nan_value_raises
    (ledger : FidesLedger) (payment : Payment) (dr : record)
    (payment_dt : datetime) (signalling : bool) (maximum_value : Decimal) :
  passes_1_to_6 ledger payment dr payment_dt ->
  Decimal_of_str (value payment) = Some (DNaN signalling) ->
  Decimal_of_str (py_str (dict_get_or dr "maximum_value" (VStr "0")))
  = Some maximum_value ->
  is_payment_authorized ledger payment = Raise InvalidOperation.
Proof.
  intros Hpasses Hvalue Hmaximum.
  rewrite (decision_after_check_6 _ _ _ _ Hpasses), Hvalue, Hmaximum.
  reflexivity.
Qed.

Lemma sum_values_raise (total : Decimal) (values : list string) (value : string) :
  value ∈ values -> Decimal_of_str value = None ->
  exists e, sum_values total values = Raise e.
Proof.
  intros Hin Hvalue. revert total.
  induction values as [|v values IH]; intros total; [by apply elem_of_nil in Hin|].
  simpl. apply elem_of_cons in Hin as [<- | Hin].
  - rewrite Hvalue. simpl. eauto.
  - destruct (of_option (Decimal_of_str v) _) as [d|]; simpl; [|eauto].
    destruct (dec_add total d) as [subtotal|]; simpl; [|eauto].
    by apply IH.
Qed.

(** X23. A logged payment whose value is not a number blocks its decision
    by exception: [sum_payments] raises, and so does
    [is_payment_authorized] for every payment against that decision that
    has passed checks 1 to 6 with a positive value. *)
Theorem malformed_log_raises
    (ledger : FidesLedger) (payment : Payment) (dr : record)
    (payment_dt : datetime) (payment_value maximum_value : Decimal)
    (logged : payment_row) :
  passes_1_to_6 ledger payment dr payment_dt ->
  Decimal_of_str (value payment) = Some payment_value ->
  dec_gt payment_value dec_zero = Ok true ->
  Decimal_of_str (py_str (dict_get_or dr "maximum_value" (VStr "0")))
  = Some maximum_value ->
  logged ∈ payments ledger ->
  pay_decision_id logged = decision_id payment ->
  Decimal_of_str (pay_value logged) = None ->
  exists e,
    sum_payments ledger (decision_id payment) = Raise e
    /\ is_payment_authorized ledger payment = Raise e.
Proof.
  intros Hpasses Hvalue Hpositive Hmaximum Hlogged Hdecision Hmalformed.
  assert (exists e, sum_payments ledger (decision_id payment) = Raise e)
    as [e Hsum].
  { unfold sum_payments. apply sum_values_raise with (pay_value logged); [|done].
    apply list_elem_of_fmap. exists logged. split; [done|].
    apply list_elem_of_In, List.filter_In. split; [by apply list_elem_of_In|].
    by apply bool_decide_eq_true. }
  exists e. split; [done|].
  rewrite (decision_after_check_6 _ _ _ _ Hpasses), Hvalue, Hmaximum.
  apply dec_le_false_gt in Hpositive. rewrite Hpositive. cbn [bind].
  by rewrite Hsum.
Qed.

End DecisionProperties.

(** ** Further properties of the validators and of the payment log *)

Section ValidatorProperties.
Context `{PyLib}.

Lemma missing_fields_same (required : list string) (r1 r2 : record) :
  (forall field, field ∈ required -> r1 !! field = r2 !! field) ->
  missing_fields required r1 = missing_fields required r2.
Proof.
  induction required as [|field rest IH]; intros Hsame; [done|].
  simpl. rewrite (Hsame field) by (apply elem_of_cons; auto).
  rewrite IH; [done|]. intros f Hf. apply Hsame, elem_of_cons. auto.
Qed.

Ltac same_fields r Hsame :=
  repeat match goal with
         | |- context [r !! ?field] =>
             rewrite (Hsame field) by (rewrite !elem_of_cons; auto 20)
         end.

(** X24. The validators read the required fields and nothing else: two
    records that agree on the twelve fields of [validate_dr] (on the nine
    of [validate_rr]) get the same verdict, whatever [record_type],
    [maximum_term] or any other key holds. *)
Theorem validators_read_required_fields (r1 r2 : record) :
  ((forall field, field ∈ dr_required -> r1 !! field = r2 !! field) ->
   validate_dr r1 = validate_dr r2)
  /\ ((forall field, field ∈ rr_required -> r1 !! field = r2 !! field) ->
      validate_rr r1 = validate_rr r2).
Proof.
  split; intros Hsame.
  - unfold validate_dr, getitem, dict_get.
    rewrite (missing_fields_same _ r1 r2 Hsame).
    unfold dr_required in Hsame. by same_fields r1 Hsame.
  - unfold validate_rr, getitem, dict_get.
    rewrite (missing_fields_same _ r1 r2 Hsame).
    unfold rr_required in Hsame. by same_fields r1 Hsame.
Qed.

Lemma no_errors_nil (errors : list string) :
  no_errors errors = true <-> errors = [].
Proof. by destruct errors. Qed.

Ltac split_binds :=
  repeat (match goal with
          | |- context [bind ?m _] =>
              lazymatch m with
              | context [bind _ _] => fail
              | _ => destruct m eqn:?
              end
          end; cbn [bind]).

(** X25. The flag of a validator says whether its list is empty: whenever
    [validate_dr] or [validate_rr] returns [(valid, errors)], [valid] is
    [True] exactly when [errors] is empty, on the early return for missing
    fields as on the last line. *)
Theorem valid_iff_no_errors (r : record) (valid : bool) (errors : list string) :
  validate_dr r = Ok (valid, errors) \/ validate_rr r = Ok (valid, errors) ->
  valid = true <-> errors = [].
Proof.
  intros [Hvalidate | Hvalidate]; revert Hvalidate.
  - unfold validate_dr.
    destruct (missing_fields dr_required r); cbn [no_errors negb];
      [|intros [= <- <-]; split; discriminate].
    split_binds; try discriminate. intros [= <- <-]. apply no_errors_nil.
  - unfold validate_rr.
    destruct (missing_fields rr_required r); cbn [no_errors negb];
      [|intros [= <- <-]; split; discriminate].
    split_binds; try discriminate. intros [= <- <-]. apply no_errors_nil.
Qed.

Lemma dec_gt_zero (c e : Z) : dec_gt (DFin c e) dec_zero = Ok (0 <? c).
Proof.
  unfold dec_gt, dec_cmp, dec_zero. cbn [bind]. f_equal.
  set (k := e - Z.min e 0).
  assert (0 < 10 ^ k) by (apply Z.pow_pos_nonneg; lia).
  rewrite Z.mul_0_l.
  destruct (Z.compare_spec (c * 10 ^ k) 0), (Z.ltb_spec 0 c); try done; nia.
Qed.

(** X26. What [is_positive_decimal] lets through: the values whose string
    [Decimal] accepts and that are a finite number above zero or the
    positive infinity.  A NaN is refused (its comparison raises inside the
    [try]); [Infinity] is accepted as a [maximum_value]. *)
Theorem is_positive_decimal_accepts (value : pyval) :
  is_positive_decimal value = true
  <-> exists d,
        Decimal_of_str (py_str value) = Some d
        /\ (d = DInf false \/ exists c e, d = DFin c e /\ 0 < c).
Proof.
  unfold is_positive_decimal.
  destruct (Decimal_of_str (py_str value)) as [[c e|[]|signalling]|].
  - rewrite dec_gt_zero. split.
    + intros Hpositive%Z.ltb_lt. exists (DFin c e). split; [done|]. right. eauto.
    + intros (d & [= <-] & [|(c' & e' & [= <- <-] & Hpositive)]); [done|].
      by apply Z.ltb_lt.
  - simpl. split; [done|].
    by intros (d & [= <-] & [|(c' & e' & ? & _)]).
  - simpl. split; [|done]. intros _. exists (DInf false). auto.
  - simpl. split; [done|].
    by intros (d & [= <-] & [|(c' & e' & ? & _)]).
  - split; [done|]. by intros (d & ? & _).
Qed.

Lemma ascii_lower_newline (a : ascii) :
  (nat_of_ascii (ascii_lower a) =? 10)%nat = true -> a = ascii_of_nat 10.
Proof.
  destruct a as [[] [] [] [] [] [] [] []]; vm_compute; (done || discriminate).
Qed.

Lemma re_match_newline (pattern : list char_class) (s : string) :
  re_match pattern (lower s) = true ->
  (String.length s = length pattern
   /\ re_match pattern (lower (s +:+ newline)) = true)
  \/ (String.length s = S (length pattern)
      /\ exists t, s = t +:+ newline /\ re_match pattern (lower t) = true).
Proof.
  unfold lower. revert s.
  induction pattern as [|c pattern IH]; intros s.
  - destruct s as [|a [|b s]]; simpl; [by left| |discriminate].
    intros ->%ascii_lower_newline. right. split; [done|]. by exists "".
  - destruct s as [|a s]; simpl; [discriminate|].
    intros [Hclass Hrest]%andb_true_iff.
    destruct (IH s Hrest) as [[Hlength Hmatch] | [Hlength (t & -> & Hmatch)]].
    + left. split; [by rewrite Hlength|]. by rewrite Hclass.
    + right. split; [by rewrite Hlength|].
      exists (String a t). split; [done|]. simpl. by rewrite Hclass.
Qed.

(** X27. The pattern of [is_uuid_v4] ends in [$], which also matches before
    a line feed that ends the string: a string that is accepted has 36
    characters and is still accepted with a line feed appended, or has 37
    characters, the last one a line feed after an accepted string. *)
Theorem is_uuid_v4_line_feed (s : string) :
  is_uuid_v4 (VStr s) = true ->
  (String.length s = 36%nat /\ is_uuid_v4 (VStr (s +:+ newline)) = true)
  \/ (String.length s = 37%nat
      /\ exists t, s = t +:+ newline /\ is_uuid_v4 (VStr t) = true).
Proof.
  unfold is_uuid_v4, py_str, py_str_with. apply re_match_newline.
Qed.

(** X28. The guard fits the call: [parse_date] returns a [datetime] exactly
    on the values that [is_iso8601] accepts, so that a [parse_date] behind
    an [is_iso8601] test never raises. *)
Theorem parse_date_returns_iff_is_iso8601 (value : pyval) :
  is_iso8601 value = true <-> exists d, parse_date value = Ok d.
Proof.
  split.
  - apply is_iso8601_parse_date.
  - intros [d Hparse]. by apply parse_date_is_iso8601 in Hparse.
Qed.

Lemma run_write_payments (w : ledger_write) (l : FidesLedger) :
  payments l `prefix_of` payments (run_write w l).
Proof.
  destruct w as [r | payment_id id beneficiary_id currency_code amount date];
    simpl.
  - destruct (append_record r l) as [[h|e] l'] eqn:Happend; simpl.
    + unfold append_record in Happend.
      destruct (check_chain r l) as [[]|]; [|discriminate].
      unfold insert_record in Happend. revert Happend. split_binds;
        try discriminate. by intros [= _ <-].
    + by apply append_record_raise in Happend as ->.
  - unfold record_payment. case_bool_decide; simpl; [done|].
    by apply prefix_app_r.
Qed.

(** X29. The payment log is append-only: whatever records are appended and
    whatever payments are recorded, with or without success, the payments
    logged before are still there, in the same order and unchanged, and so
    is every payment identifier. *)
Theorem payment_log_is_append_only (ws : list ledger_write) (l : FidesLedger) :
  payments l `prefix_of` payments (run_writes ws l).
Proof.
  revert l. induction ws as [|w ws IH]; intros l; simpl; [done|].
  etrans; [apply run_write_payments | apply IH].
Qed.

End ValidatorProperties.

(** ** The properties at concrete inputs *)

Section Evaluation.
Import Concrete Examples.

(** Both sides are closed: the kernel compares their values. *)
Ltac evaluate :=
  lazymatch goal with
  | |- ?lhs = ?rhs => vm_cast_no_check (@eq_refl _ rhs)
  end.

Lemma ledger_dr_passes_1_to_6 (l : FidesLedger) (value : string) :
  records l = records ledger_dr ->
  passes_1_to_6 l (pay value january_15) the_dr (date_of january_15).
Proof.
  intros Hrecords.
  split; unfold find_decision_record, is_revoked, find_revocation_record;
    rewrite ?Hrecords.
  - evaluate.
  - evaluate.
  - exists []. evaluate.
  - evaluate.
  - exists (VStr "2024-01-01T10:00:00Z"), (date_of "2024-01-01T10:00:00Z").
    repeat split; evaluate.
  - evaluate.
  - evaluate.
Qed.

Lemma ledger_sdr_passes_1_to_6 (l : FidesLedger) (sdr : record) :
  (l = ledger_sdr /\ sdr = the_sdr) \/ (l = ledger_sdr_open /\ sdr = the_sdr_open) ->
  passes_1_to_6 l (pay "4000.00" july_20) sdr (date_of july_20).
Proof.
  intros [[-> ->] | [-> ->]];
    (split;
     [ evaluate | evaluate | exists []; evaluate | evaluate
     | exists (VStr "2024-01-01T10:00:00Z"), (date_of "2024-01-01T10:00:00Z");
       repeat split; evaluate
     | evaluate | evaluate ]).
Qed.

Lemma no_payment_within_limit (l : FidesLedger) (dr : record) :
  payments l = [] ->
  dr !! "maximum_value" = Some (VStr "10000.00") ->
  within_limit l (pay "4000.00" july_20) dr
  /\ within_limit_exact l (pay "4000.00" july_20) dr.
Proof.
  intros Hpayments Hmaximum.
  split; exists (DFin 400000 (-2)), (DFin 1000000 (-2)), dec_zero, (DFin 400000 (-2));
    unfold sum_payments, dict_get_or; rewrite Hpayments, Hmaximum;
    repeat split; evaluate.
Qed.

(** C1, at a failing input.  The ledger holds the decision record of the
    unit tests, whose [decision_date] ends in [Z]; the payment is dated
    [2024-01-15T14:00:00], with no zone.  Both dates pass [is_iso8601], and
    the comparison [payment_dt < decision_dt] of a naive with an aware
    [datetime] raises [TypeError]: the function does not return a boolean. *)
Theorem is_payment_authorized_raises :
  is_payment_authorized ledger_dr (pay "5000.00" january_15_naive)
  = Raise TypeError.
Proof. evaluate. Qed.

(** Two more ways out of the function: a payment value of [NaN], on which
    [payment_value <= 0] signals, and a logged payment whose value is not a
    number, on which [sum_payments] fails. *)
Example nan_value_is_not_caught :
  is_payment_authorized ledger_dr (pay "NaN" january_15) = Raise InvalidOperation.
Proof. evaluate. Qed.

Example malformed_log_is_not_caught :
  let logged :=
    snd (record_payment "PAY-002" uuid1 "SUPPLIER-TEST" "BRL" "six thousand"
           january_15 ledger_dr) in
  is_payment_authorized logged (pay "5000.00" january_15) = Raise InvalidOperation.
Proof. cbv zeta. evaluate. Qed.

(** C6, at a failing input.  Every required field of the record is present
    and well formed; [decision_date] is written without a zone and
    [record_timestamp] with one.  The temporal rule compares the two and
    raises [TypeError]: [validate_dr] returns no list of codes. *)
Theorem validate_dr_raises : validate_dr dr_mixed_zones = Raise TypeError.
Proof. evaluate. Qed.

(** C2, as stated, fails.  The record is an SDR whose [maximum_term] is
    2024-06-30 and the payment of 4000.00 is dated 2024-07-20: the record
    exists, is unrevoked and valid, the date, beneficiary and currency checks
    pass, the value is a positive decimal and [0 + 4000.00 <= 10000.00], and
    yet the payment is rejected, by check 8. *)
Lemma expired_sdr_is_rejected_within_limit :
  passes_1_to_6 ledger_sdr (pay "4000.00" july_20) the_sdr (date_of july_20)
  /\ within_limit_exact ledger_sdr (pay "4000.00" july_20) the_sdr
  /\ is_payment_authorized ledger_sdr (pay "4000.00" july_20) = Ok false.
Proof.
  split; [|split].
  - apply ledger_sdr_passes_1_to_6; auto.
  - by apply no_payment_within_limit.
  - evaluate.
Qed.

(** Why the amended statement asks for an exact addition: on a limit of 29
    digits, nothing paid and the whole limit asked, [0 + value] is rounded
    up to 28 digits, exceeds the limit and the payment is rejected. *)
Example rounded_sum_exceeds_limit :
  exactly_headroom ledger_big (pay big january_15) the_big_dr
  /\ is_payment_authorized ledger_big (pay big january_15) = Ok false.
Proof.
  split; [|evaluate].
  exists (DFin 10000000000000000000000000009 0),
    (DFin 10000000000000000000000000009 0), dec_zero,
    (DFin 10000000000000000000000000009 0).
  repeat split; evaluate.
Qed.

(** The amended statement at the boundary: 6000.00 are paid and 4000.00 are
    asked of a decision of 10000.00. *)
Lemma authorized_iff_within_limit_witness :
  let ledger := ledger_paid in
  let payment := pay "4000.00" january_15 in
  passes_1_to_6 ledger payment the_dr (date_of january_15)
  /\ exception_expired the_dr (date_of january_15) = Ok false
  /\ addition_is_exact ledger payment
  /\ ((is_payment_authorized ledger payment = Ok true
       <-> within_limit_exact ledger payment the_dr)
      /\ (exactly_headroom ledger payment the_dr ->
          is_payment_authorized ledger payment = Ok true)).
Proof.
  cbv zeta.
  assert (passes_1_to_6 ledger_paid (pay "4000.00" january_15) the_dr
            (date_of january_15)) as Hpasses
    by (apply ledger_dr_passes_1_to_6; evaluate).
  assert (exception_expired the_dr (date_of january_15) = Ok false) as Hexpiry
    by evaluate.
  assert (addition_is_exact ledger_paid (pay "4000.00" january_15)) as Hexact.
  { intros payment_value total_paid Hvalue Htotal.
    vm_compute in Hvalue. vm_compute in Htotal.
    injection Hvalue as <-. injection Htotal as <-. evaluate. }
  exact (conj Hpasses (conj Hexpiry (conj Hexact
           (authorized_iff_within_limit ledger_paid (pay "4000.00" january_15)
              the_dr (date_of january_15) Hpasses Hexpiry Hexact)))).
Defined.

(** At the ledger of the unit tests: a payment of 5000.00 is authorized, the
    decision is revoked, the same payment is rejected. *)
Lemma revocation_blocks_payment_witness :
  let payment := pay "5000.00" january_15 in
  let appended := append_record the_rr ledger_dr in
  is_payment_authorized ledger_dr payment = Ok true
  /\ the_rr !! "record_type" = Some (VStr "RR")
  /\ the_rr !! "target_decision_id" = Some (VStr (decision_id payment))
  /\ appended = (Ok (record_hash the_rr), snd appended)
  /\ is_payment_authorized (snd appended) payment = Ok false.
Proof.
  cbv zeta.
  assert (is_payment_authorized ledger_dr (pay "5000.00" january_15) = Ok true)
    as Hauthorized by evaluate.
  assert (the_rr !! "record_type" = Some (VStr "RR")) as Htype by evaluate.
  assert (the_rr !! "target_decision_id"
          = Some (VStr (decision_id (pay "5000.00" january_15)))) as Htarget
    by evaluate.
  assert (append_record the_rr ledger_dr
          = (Ok (record_hash the_rr), snd (append_record the_rr ledger_dr)))
    as Happend by evaluate.
  exact (conj Hauthorized (conj Htype (conj Htarget (conj Happend
           (revocation_blocks_payment ledger_dr _ (pay "5000.00" january_15)
              the_rr _ Hauthorized Htype Htarget Happend))))).
Defined.

(** At a chain of two records: a decision and its revocation. *)
Lemma factory_chain_is_valid_witness :
  factory_built ledger_revoked
  /\ verify_chain_integrity ledger_revoked = (true, None).
Proof.
  assert (factory_built ledger_revoked) as Hbuilt.
  { assert (ledger_revoked
            = snd (create_revocation_record uuid2 clock uuid1 "GOV-TEST-001"
                     ["DECIDER-001"] "Contract cancelled" ["SIG-001"] None None
                     (Some "2024-02-01T09:00:00Z")
                     (snd (create_decision_record uuid1 clock
                             "GOV-TEST-001" ["DECIDER-001"] "contract" "BRL"
                             "10000.00" "SUPPLIER-TEST" "Test Law"
                             "2024-01-01T10:00:00Z" ["SIG-001"]
                             None (Some "2024-01-01T10:30:00Z") new_ledger))))
      as -> by evaluate.
    apply built_revocation, built_decision, built_new. }
  split; [assumption | exact (factory_chain_is_valid ledger_revoked Hbuilt)].
Defined.

(** At a new ledger and a record whose link is not the genesis hash. *)
Lemma append_record_atomic_on_failure_witness :
  fails_chain_check dr_unlinked new_ledger
  /\ exists e,
       append_record dr_unlinked new_ledger = (Raise e, new_ledger)
       /\ ChainError e.
Proof.
  assert (fails_chain_check dr_unlinked new_ledger) as Hfails
    by (left; split; evaluate).
  split;
    [assumption
    | exact (append_record_atomic_on_failure dr_unlinked new_ledger Hfails)].
Defined.

(** At an SDR that carries no [maximum_term]: a payment dated in July is
    authorized. *)
Lemma sdr_without_term_is_not_checked_witness :
  let payment := pay "4000.00" july_20 in
  passes_1_to_6 ledger_sdr_open payment the_sdr_open (date_of july_20)
  /\ within_limit ledger_sdr_open payment the_sdr_open
  /\ dict_get the_sdr_open "record_type" = VStr "SDR"
  /\ the_sdr_open !! "maximum_term" = None
  /\ is_payment_authorized ledger_sdr_open payment = Ok true.
Proof.
  cbv zeta.
  assert (passes_1_to_6 ledger_sdr_open (pay "4000.00" july_20) the_sdr_open
            (date_of july_20)) as Hpasses
    by (apply ledger_sdr_passes_1_to_6; auto).
  assert (within_limit ledger_sdr_open (pay "4000.00" july_20) the_sdr_open)
    as Hlimit by (apply no_payment_within_limit; evaluate).
  assert (dict_get the_sdr_open "record_type" = VStr "SDR") as Htype
    by evaluate.
  assert (the_sdr_open !! "maximum_term" = None) as Hterm by evaluate.
  exact (conj Hpasses (conj Hlimit (conj Htype (conj Hterm
           (sdr_without_term_is_not_checked ledger_sdr_open
              (pay "4000.00" july_20) the_sdr_open (date_of july_20)
              Hpasses Hlimit Htype (or_introl Hterm)))))).
Defined.

(** At a new ledger and the decision record of the unit tests: the record
    passes the genesis check and is appended. *)
Lemma append_record_chain_error_witness :
  ~ fails_chain_check the_dr new_ledger
  /\ exists l',
       append_record the_dr new_ledger = (Ok (record_hash the_dr), l')
       /\ get_all_records l' = get_all_records new_ledger ++ [the_dr]
       /\ payments l' = payments new_ledger.
Proof.
  assert (verify_genesis the_dr = true) as Hgenesis by evaluate.
  assert (~ fails_chain_check the_dr new_ledger) as Hpasses.
  { intros [[_ Hfails] | (last_record & Hlast & _)]; [congruence|].
    discriminate Hlast. }
  assert (dict_get_or the_dr "record_type" (VStr "DR") = VStr "DR") as Htype
    by evaluate.
  assert (dict_get the_dr "authority_id" = VStr "GOV-TEST-001") as Hauthority
    by evaluate.
  assert (dict_get the_dr "record_timestamp" = VStr "2024-01-01T10:30:00Z")
    as Htimestamp by evaluate.
  assert (dict_get the_dr "decision_id" = from_option VStr VNone (Some uuid1))
    as Hdecision by evaluate.
  assert (dict_get the_dr "revocation_id" = from_option VStr VNone None)
    as Hrevocation by evaluate.
  assert (dict_get the_dr "target_decision_id" = from_option VStr VNone None)
    as Htarget by evaluate.
  exact (conj Hpasses
           (proj2 (proj2 (proj2 (append_record_chain_error the_dr new_ledger)))
              "DR" "GOV-TEST-001" "2024-01-01T10:30:00Z" (Some uuid1) None None
              Hpasses Htype Hauthority Htimestamp Hdecision Hrevocation
              Htarget)).
Defined.

(** *** The further properties at the ledger of the unit tests *)

Lemma ledger_dr_checks_1_to_3 (l : FidesLedger) (payment_date : string) :
  records l = records ledger_dr ->
  find_decision_record l (decision_id (pay "5000.00" payment_date)) = Some the_dr
  /\ is_revoked l (decision_id (pay "5000.00" payment_date)) = false
  /\ validate_dr the_dr = Ok (true, [])
  /\ the_dr !! "decision_date" = Some (VStr "2024-01-01T10:00:00Z")
  /\ parse_date (VStr "2024-01-01T10:00:00Z")
     = Ok (date_of "2024-01-01T10:00:00Z").
Proof.
  intros Hrecords.
  unfold find_decision_record, is_revoked, find_revocation_record.
  rewrite Hrecords. repeat split; evaluate.
Qed.

Lemma computed_link_verifies_witness :
  the_dr !! "previous_record_hash"
  = Some (VStr (compute_previous_hash "GOV-TEST-001" "2024-01-01T10:30:00Z" None))
  /\ the_dr !! "authority_id" = Some (VStr "GOV-TEST-001")
  /\ the_dr !! "record_timestamp" = Some (VStr "2024-01-01T10:30:00Z")
  /\ verify_genesis the_dr = true.
Proof.
  assert (the_dr !! "previous_record_hash"
          = Some (VStr (compute_previous_hash "GOV-TEST-001"
                          "2024-01-01T10:30:00Z" None))) as Hlink by evaluate.
  assert (the_dr !! "authority_id" = Some (VStr "GOV-TEST-001")) as Hauthority
    by evaluate.
  assert (the_dr !! "record_timestamp" = Some (VStr "2024-01-01T10:30:00Z"))
    as Htimestamp by evaluate.
  exact (conj Hlink (conj Hauthority (conj Htimestamp
           (computed_link_verifies "GOV-TEST-001" "2024-01-01T10:30:00Z" None
              the_dr Hlink Hauthority Htimestamp)))).
Defined.

Lemma appended_decision_is_found_witness :
  append_record the_sdr new_ledger = (Ok (record_hash the_sdr), ledger_sdr)
  /\ the_sdr !! "decision_id" = Some (VStr uuid1)
  /\ the_sdr !! "record_type" = Some (VStr "SDR")
  /\ find_decision_record ledger_sdr uuid1
     = Some (default the_sdr (find_decision_record new_ledger uuid1)).
Proof.
  assert (append_record the_sdr new_ledger
          = (Ok (record_hash the_sdr), ledger_sdr)) as Happend by evaluate.
  assert (the_sdr !! "decision_id" = Some (VStr uuid1)) as Hid by evaluate.
  assert (the_sdr !! "record_type" = Some (VStr "SDR")) as Htype by evaluate.
  exact (conj Happend (conj Hid (conj Htype
           (appended_decision_is_found the_sdr uuid1 _ new_ledger ledger_sdr
              Happend Hid (or_intror (or_intror Htype)))))).
Defined.

Lemma found_decision_is_stable_witness :
  find_decision_record ledger_dr uuid1 = Some the_dr
  /\ find_decision_record (run_writes some_writes ledger_dr) uuid1 = Some the_dr.
Proof.
  assert (find_decision_record ledger_dr uuid1 = Some the_dr) as Hfound
    by evaluate.
  exact (conj Hfound
           (found_decision_is_stable ledger_dr uuid1 the_dr some_writes Hfound)).
Defined.

Lemma revoked_decision_never_pays_witness :
  is_revoked ledger_revoked (decision_id (pay "5000.00" january_15)) = true
  /\ is_payment_authorized (run_writes some_writes ledger_revoked)
       (pay "5000.00" january_15) = Ok false.
Proof.
  assert (is_revoked ledger_revoked (decision_id (pay "5000.00" january_15))
          = true) as Hrevoked by evaluate.
  exact (conj Hrevoked
           (revoked_decision_never_pays ledger_revoked (pay "5000.00" january_15)
              some_writes Hrevoked)).
Defined.


Lemma stored_record_has_bound_columns_witness :
  append_record the_dr new_ledger = (Ok (record_hash the_dr), ledger_dr)
  /\ (exists previous_record_hash,
        the_dr !! "previous_record_hash" = Some (VStr previous_record_hash))
  /\ (forall field, field ∈ ["authority_id"; "record_timestamp"] ->
        dict_get the_dr field <> VNone
        /\ is_list (dict_get the_dr field) = false)
  /\ the_dr !! "record_type" <> Some VNone
  /\ (forall field,
        field ∈ ["record_type"; "decision_id"; "revocation_id";
                 "target_decision_id"] ->
        is_list (dict_get the_dr field) = false).
Proof.
  assert (append_record the_dr new_ledger = (Ok (record_hash the_dr), ledger_dr))
    as Happend by evaluate.
  exact (conj Happend
           (stored_record_has_bound_columns the_dr _ new_ledger ledger_dr
              Happend)).
Defined.

Lemma writes_keep_integrity_witness :
  verify_chain_integrity ledger_dr = (true, None)
  /\ verify_chain_integrity (run_writes some_writes ledger_dr) = (true, None).
Proof.
  assert (verify_chain_integrity ledger_dr = (true, None)) as Hvalid by evaluate.
  exact (conj Hvalid (writes_keep_integrity ledger_dr some_writes Hvalid)).
Defined.

Lemma first_invalid_index_witness :
  verify_chain_integrity ledger_spliced = (false, Some 1%nat)
  /\ exists r,
       get_all_records ledger_spliced !! 1%nat = Some r
       /\ (exists p,
             get_all_records ledger_spliced !! 0%nat = Some p
             /\ verify_chain_link r p = false)
       /\ verify_chain_integrity
            (mk_ledger (take 1 (records ledger_spliced)) (payments ledger_spliced))
          = (true, None).
Proof.
  assert (verify_chain_integrity ledger_spliced = (false, Some 1%nat))
    as Hinvalid by evaluate.
  exact (conj Hinvalid (first_invalid_index ledger_spliced 1 Hinvalid)).
Defined.

Lemma created_decision_is_found_witness :
  create_decision_record uuid1 clock
    "GOV-TEST-001" ["DECIDER-001"] "contract" "BRL" "10000.00"
    "SUPPLIER-TEST" "Test Law" "2024-01-01T10:00:00Z" ["SIG-001"]
    None (Some "2024-01-01T10:30:00Z") new_ledger = (Ok the_dr, ledger_dr)
  /\ dict_get the_dr "decision_id" = VStr uuid1
  /\ find_decision_record ledger_dr uuid1
     = Some (default the_dr (find_decision_record new_ledger uuid1)).
Proof.
  assert (create_decision_record uuid1 clock
            "GOV-TEST-001" ["DECIDER-001"] "contract" "BRL" "10000.00"
            "SUPPLIER-TEST" "Test Law" "2024-01-01T10:00:00Z" ["SIG-001"]
            None (Some "2024-01-01T10:30:00Z") new_ledger = (Ok the_dr, ledger_dr))
    as Hcreated by evaluate.
  exact (conj Hcreated
           (created_decision_is_found uuid1 clock
              "GOV-TEST-001" ["DECIDER-001"] "contract" "BRL" "10000.00"
              "SUPPLIER-TEST" "Test Law" "2024-01-01T10:00:00Z" ["SIG-001"]
              None (Some "2024-01-01T10:30:00Z") new_ledger ledger_dr the_dr
              Hcreated)).
Defined.

Lemma second_revocation_is_refused_witness :
  create_revocation_record uuid2 clock uuid1 "GOV-TEST-001"
    ["DECIDER-001"] "Contract cancelled" ["SIG-001"] None None
    (Some "2024-02-01T09:00:00Z") ledger_dr = (Ok the_rr, ledger_revoked)
  /\ create_revocation_record uuid2 clock uuid1 "GOV-TEST-002"
       ["DECIDER-002"] "Again" ["SIG-002"] None None None ledger_revoked
     = (Raise (ValueError ("Decision already revoked: " +:+ uuid1)),
        ledger_revoked).
Proof.
  assert (create_revocation_record uuid2 clock uuid1 "GOV-TEST-001"
            ["DECIDER-001"] "Contract cancelled" ["SIG-001"] None None
            (Some "2024-02-01T09:00:00Z") ledger_dr = (Ok the_rr, ledger_revoked))
    as Hrevoked by evaluate.
  exact (conj Hrevoked
           (second_revocation_is_refused uuid2 clock uuid1 "GOV-TEST-001"
              ["DECIDER-001"] "Contract cancelled" ["SIG-001"] None None
              (Some "2024-02-01T09:00:00Z")
              uuid2 clock "GOV-TEST-002" ["DECIDER-002"] "Again" ["SIG-002"]
              None None None ledger_dr ledger_revoked the_rr Hrevoked)).
Defined.

Lemma sum_after_record_payment_witness :
  record_payment "PAY-001" uuid1 "SUPPLIER-TEST" "BRL" "6000.00" january_15
    ledger_dr = (Ok tt, ledger_paid)
  /\ sum_payments ledger_paid uuid1
     = (total <- sum_payments ledger_dr uuid1 ;;
        d <- of_option (Decimal_of_str "6000.00") InvalidOperation ;;
        dec_add total d)
  /\ forall other, other <> uuid1 ->
       sum_payments ledger_paid other = sum_payments ledger_dr other.
Proof.
  assert (record_payment "PAY-001" uuid1 "SUPPLIER-TEST" "BRL" "6000.00"
            january_15 ledger_dr = (Ok tt, ledger_paid)) as Hrecorded
    by evaluate.
  exact (conj Hrecorded
           (sum_after_record_payment "PAY-001" uuid1 "SUPPLIER-TEST" "BRL"
              "6000.00" january_15 ledger_dr ledger_paid Hrecorded)).
Defined.

Lemma payment_id_is_logged_once_witness :
  record_payment "PAY-001" uuid1 "SUPPLIER-TEST" "BRL" "6000.00" january_15
    ledger_dr = (Ok tt, ledger_paid)
  /\ record_payment "PAY-001" uuid2 "SUPPLIER-OTHER" "USD" "1.00" july_20
       ledger_paid = (Raise sqlite3_Error, ledger_paid).
Proof.
  assert (record_payment "PAY-001" uuid1 "SUPPLIER-TEST" "BRL" "6000.00"
            january_15 ledger_dr = (Ok tt, ledger_paid)) as Hrecorded
    by evaluate.
  exact (conj Hrecorded
           (payment_id_is_logged_once "PAY-001" uuid1 "SUPPLIER-TEST" "BRL"
              "6000.00" january_15 uuid2 "SUPPLIER-OTHER" "USD" "1.00" july_20
              ledger_dr ledger_paid Hrecorded)).
Defined.

Lemma recorded_total_within_limit_witness :
  is_payment_authorized ledger_dr (pay "6000.00" january_15) = Ok true
  /\ record_payment "PAY-001" uuid1 "SUPPLIER-TEST" "BRL" "6000.00" january_15
       ledger_dr = (Ok tt, ledger_paid)
  /\ exists dr maximum_value total,
       find_decision_record ledger_paid uuid1 = Some dr
       /\ Decimal_of_str (py_str (dict_get_or dr "maximum_value" (VStr "0")))
          = Some maximum_value
       /\ sum_payments ledger_paid uuid1 = Ok total
       /\ dec_le total maximum_value = Ok true.
Proof.
  assert (is_payment_authorized ledger_dr (pay "6000.00" january_15) = Ok true)
    as Hauthorized by evaluate.
  assert (record_payment "PAY-001" uuid1 "SUPPLIER-TEST" "BRL" "6000.00"
            january_15 ledger_dr = (Ok tt, ledger_paid)) as Hrecorded
    by evaluate.
  exact (conj Hauthorized (conj Hrecorded
           (recorded_total_within_limit ledger_dr ledger_paid
              (pay "6000.00" january_15) "PAY-001" Hauthorized Hrecorded))).
Defined.

Lemma reason_is_authorized_iff_flag_witness :
  is_payment_authorized_with_reason ledger_paid (pay "5000.00" january_15)
  = Ok (false, "EXCEEDS_MAXIMUM_VALUE")
  /\ (false = true <-> "EXCEEDS_MAXIMUM_VALUE" = "AUTHORIZED").
Proof.
  assert (is_payment_authorized_with_reason ledger_paid (pay "5000.00" january_15)
          = Ok (false, "EXCEEDS_MAXIMUM_VALUE")) as Hreason by evaluate.
  exact (conj Hreason
           (reason_is_authorized_iff_flag ledger_paid (pay "5000.00" january_15)
              false "EXCEEDS_MAXIMUM_VALUE" Hreason)).
Defined.

Lemma payment_before_decision_is_rejected_witness :
  let payment := pay "5000.00" december_31 in
  find_decision_record ledger_dr (decision_id payment) = Some the_dr
  /\ is_revoked ledger_dr (decision_id payment) = false
  /\ validate_dr the_dr = Ok (true, [])
  /\ parse_date (VStr (payment_date payment)) = Ok (date_of december_31)
  /\ the_dr !! "decision_date" = Some (VStr "2024-01-01T10:00:00Z")
  /\ parse_date (VStr "2024-01-01T10:00:00Z")
     = Ok (date_of "2024-01-01T10:00:00Z")
  /\ dt_lt (date_of december_31) (date_of "2024-01-01T10:00:00Z") = Ok true
  /\ is_payment_authorized ledger_dr payment = Ok false
  /\ is_payment_authorized_with_reason ledger_dr payment
     = Ok (false, "PAYMENT_BEFORE_DECISION").
Proof.
  cbv zeta.
  destruct (ledger_dr_checks_1_to_3 ledger_dr december_31 eq_refl)
    as (Hfound & Hrevoked & Hvalid & Hfield & Hdecision).
  assert (parse_date (VStr (payment_date (pay "5000.00" december_31)))
          = Ok (date_of december_31)) as Hpayment by evaluate.
  assert (dt_lt (date_of december_31) (date_of "2024-01-01T10:00:00Z") = Ok true)
    as Horder by evaluate.
  exact (conj Hfound (conj Hrevoked (conj Hvalid (conj Hpayment (conj Hfield
           (conj Hdecision (conj Horder
              (payment_before_decision_is_rejected ledger_dr
                 (pay "5000.00" december_31) the_dr [] _ _ _
                 Hfound Hrevoked Hvalid Hpayment Hfield Hdecision
                 Horder)))))))).
Defined.

Lemma wrong_party_is_rejected_witness :
  let payment := mk_payment uuid1 "SUPPLIER-OTHER" "BRL" "5000.00" january_15 in
  find_decision_record ledger_dr (decision_id payment) = Some the_dr
  /\ is_revoked ledger_dr (decision_id payment) = false
  /\ validate_dr the_dr = Ok (true, [])
  /\ parse_date (VStr (payment_date payment)) = Ok (date_of january_15)
  /\ the_dr !! "decision_date" = Some (VStr "2024-01-01T10:00:00Z")
  /\ parse_date (VStr "2024-01-01T10:00:00Z")
     = Ok (date_of "2024-01-01T10:00:00Z")
  /\ dt_lt (date_of january_15) (date_of "2024-01-01T10:00:00Z") = Ok false
  /\ dict_get the_dr "beneficiary" <> VStr (beneficiary payment)
  /\ is_payment_authorized_with_reason ledger_dr payment
     = Ok (false, "BENEFICIARY_MISMATCH").
Proof.
  cbv zeta.
  destruct (ledger_dr_checks_1_to_3 ledger_dr january_15 eq_refl)
    as (Hfound & Hrevoked & Hvalid & Hfield & Hdecision).
  assert (parse_date (VStr january_15) = Ok (date_of january_15)) as Hpayment
    by evaluate.
  assert (dt_lt (date_of january_15) (date_of "2024-01-01T10:00:00Z") = Ok false)
    as Horder by evaluate.
  assert (dict_get the_dr "beneficiary" <> VStr "SUPPLIER-OTHER") as Hother
    by (vm_compute; discriminate).
  exact (conj Hfound (conj Hrevoked (conj Hvalid (conj Hpayment (conj Hfield
           (conj Hdecision (conj Horder (conj Hother
              (proj1
                 (wrong_party_is_rejected ledger_dr
                    (mk_payment uuid1 "SUPPLIER-OTHER" "BRL" "5000.00" january_15)
                    the_dr [] _ _ _
                    Hfound Hrevoked Hvalid Hpayment Hfield Hdecision Horder)
                 Hother))))))))).
Defined.

Lemma mixed_zones_have_no_reason_witness :
  let payment := pay "5000.00" january_15_naive in
  find_decision_record ledger_dr (decision_id payment) = Some the_dr
  /\ is_revoked ledger_dr (decision_id payment) = false
  /\ validate_dr the_dr = Ok (true, [])
  /\ parse_date (VStr (payment_date payment)) = Ok (date_of january_15_naive)
  /\ the_dr !! "decision_date" = Some (VStr "2024-01-01T10:00:00Z")
  /\ parse_date (VStr "2024-01-01T10:00:00Z")
     = Ok (date_of "2024-01-01T10:00:00Z")
  /\ (dt_utcoffset (date_of january_15_naive) = None
      <-> dt_utcoffset (date_of "2024-01-01T10:00:00Z") <> None)
  /\ is_payment_authorized_with_reason ledger_dr payment = Raise TypeError.
Proof.
  cbv zeta.
  destruct (ledger_dr_checks_1_to_3 ledger_dr january_15_naive eq_refl)
    as (Hfound & Hrevoked & Hvalid & Hfield & Hdecision).
  assert (parse_date (VStr (payment_date (pay "5000.00" january_15_naive)))
          = Ok (date_of january_15_naive)) as Hpayment by evaluate.
  assert (dt_utcoffset (date_of january_15_naive) = None
          <-> dt_utcoffset (date_of "2024-01-01T10:00:00Z") <> None) as Hzones
    by (vm_compute; split; [discriminate | reflexivity]).
  exact (conj Hfound (conj Hrevoked (conj Hvalid (conj Hpayment (conj Hfield
           (conj Hdecision (conj Hzones
              (mixed_zones_have_no_reason ledger_dr
                 (pay "5000.00" january_15_naive) the_dr [] _ _ _
                 Hfound Hrevoked Hvalid Hpayment Hfield Hdecision
                 Hzones)))))))).
Defined.

Lemma nan_value_raises_witness :
  let payment := pay "NaN" january_15 in
  passes_1_to_6 ledger_dr payment the_dr (date_of january_15)
  /\ Decimal_of_str (value payment) = Some (DNaN false)
  /\ Decimal_of_str (py_str (dict_get_or the_dr "maximum_value" (VStr "0")))
     = Some (DFin 1000000 (-2))
  /\ is_payment_authorized ledger_dr payment = Raise InvalidOperation.
Proof.
  cbv zeta.
  assert (passes_1_to_6 ledger_dr (pay "NaN" january_15) the_dr
            (date_of january_15)) as Hpasses
    by (by apply ledger_dr_passes_1_to_6).
  assert (Decimal_of_str (value (pay "NaN" january_15)) = Some (DNaN false))
    as Hvalue by evaluate.
  assert (Decimal_of_str
            (py_str (dict_get_or the_dr "maximum_value" (VStr "0")))
          = Some (DFin 1000000 (-2))) as Hmaximum by evaluate.
  exact (conj Hpasses (conj Hvalue (conj Hmaximum
           (nan_value_raises ledger_dr (pay "NaN" january_15) the_dr
              (date_of january_15) false _ Hpasses Hvalue Hmaximum)))).
Defined.

Lemma malformed_log_raises_witness :
  let payment := pay "5000.00" january_15 in
  passes_1_to_6 ledger_garbled payment the_dr (date_of january_15)
  /\ Decimal_of_str (value payment) = Some (DFin 500000 (-2))
  /\ dec_gt (DFin 500000 (-2)) dec_zero = Ok true
  /\ Decimal_of_str (py_str (dict_get_or the_dr "maximum_value" (VStr "0")))
     = Some (DFin 1000000 (-2))
  /\ garbled_row ∈ payments ledger_garbled
  /\ pay_decision_id garbled_row = decision_id payment
  /\ Decimal_of_str (pay_value garbled_row) = None
  /\ exists e,
       sum_payments ledger_garbled (decision_id payment) = Raise e
       /\ is_payment_authorized ledger_garbled payment = Raise e.
Proof.
  cbv zeta.
  assert (passes_1_to_6 ledger_garbled (pay "5000.00" january_15) the_dr
            (date_of january_15)) as Hpasses
    by (by apply ledger_dr_passes_1_to_6).
  assert (Decimal_of_str (value (pay "5000.00" january_15))
          = Some (DFin 500000 (-2))) as Hvalue by evaluate.
  assert (dec_gt (DFin 500000 (-2)) dec_zero = Ok true) as Hpositive
    by evaluate.
  assert (Decimal_of_str
            (py_str (dict_get_or the_dr "maximum_value" (VStr "0")))
          = Some (DFin 1000000 (-2))) as Hmaximum by evaluate.
  assert (garbled_row ∈ payments ledger_garbled) as Hlogged
    by apply list_elem_of_here.
  assert (pay_decision_id garbled_row
          = decision_id (pay "5000.00" january_15)) as Hdecision
    by reflexivity.
  assert (Decimal_of_str (pay_value garbled_row) = None) as Hmalformed
    by evaluate.
  exact (conj Hpasses (conj Hvalue (conj Hpositive (conj Hmaximum (conj Hlogged
           (conj Hdecision (conj Hmalformed
              (malformed_log_raises ledger_garbled (pay "5000.00" january_15)
                 the_dr (date_of january_15) _ _ garbled_row
                 Hpasses Hvalue Hpositive Hmaximum Hlogged Hdecision
                 Hmalformed)))))))).
Defined.

Lemma valid_iff_no_errors_witness :
  (validate_dr dr_unlinked = Ok (true, [])
   \/ validate_rr dr_unlinked = Ok (true, []))
  /\ (true = true <-> @nil string = []).
Proof.
  assert (validate_dr dr_unlinked = Ok (true, [])
          \/ validate_rr dr_unlinked = Ok (true, [])) as Hvalidated
    by (left; evaluate).
  exact (conj Hvalidated (valid_iff_no_errors dr_unlinked true [] Hvalidated)).
Defined.

Lemma is_uuid_v4_line_feed_witness :
  is_uuid_v4 (VStr uuid1) = true
  /\ ((String.length uuid1 = 36%nat
       /\ is_uuid_v4 (VStr (uuid1 +:+ newline)) = true)
      \/ (String.length uuid1 = 37%nat
          /\ exists t, uuid1 = t +:+ newline /\ is_uuid_v4 (VStr t) = true)).
Proof.
  assert (is_uuid_v4 (VStr uuid1) = true) as Hmatch by evaluate.
  exact (conj Hmatch (is_uuid_v4_line_feed uuid1 Hmatch)).
Defined.

End Evaluation.
